(** * Site coordinate validation and correction (app.py, module top level)

    A shallow embedding of the block of [app.py] that loads [data/sites.csv],
    joins it with the mineral and country tables, and walks the records
    comparing every site with the centroid of its country.

    Coordinates are Python floats, that is IEEE binary64: they are Rocq's
    primitive floats here, with the very operations the interpreter runs
    ([-], [+], [abs], [<]).  A row is the [dict] that
    [DataFrame.to_dict('records')] yields: a finite map from column names to
    cell values. *)

From Stdlib Require Import ZArith Floats Ascii String.
From stdpp Require Import base option list gmap strings.

Set Default Proof Using "Type".
#[local] Set Warnings "-inexact-float".
#[local] Set Warnings "-register-all".

Local Open Scope string_scope.
Local Open Scope list_scope.
Local Open Scope Z_scope.

(** ** Cell values and rows *)

(** The Python values a cell of a record can hold: [None], an [int], a
    [float] (a blank CSV cell is the float NaN) or a [str]. *)
Inductive pyval : Type :=
  | VNone
  | VInt (n : Z)
  | VFloat (f : float)
  | VStr (t : string).

Abbreviation dict := (gmap string pyval).

(** [d.get(k, dflt)] *)
Definition get (d : dict) (k : string) (dflt : pyval) : pyval :=
  default dflt (d !! k).

(** ** The builtin [float()] *)

Module F64.

(** [float(n)] for a Python [int]: the nearest binary64, ties to even; an
    integer beyond the largest finite float raises [OverflowError], which is
    [None] here. *)
Definition of_int (n : Z) : option float :=
  let f := SF2Prim (binary_normalize prec emax n 0 false) in
  if PrimFloat.is_infinity f then None else Some f.

(** The integer a float is equal to, when there is one: how a key column
    that [read_csv] typed float64 (it has a blank cell) meets an integer
    index. *)
Definition to_int (f : float) : option Z :=
  match Prim2SF f with
  | S754_zero _ => Some 0
  | S754_finite s m e =>
      let z := if s then Z.neg m else Z.pos m in
      if 0 <=? e then Some (z * 2 ^ e)
      else if z mod 2 ^ (- e) =? 0 then Some (z / 2 ^ (- e))
      else None
  | S754_infinity _ | S754_nan => None
  end.

End F64.

(** [float(t)] for a [str] is the interpreter's own parser, not code of the
    program: it is an interface here, [None] standing for [ValueError].
    Every statement below holds whatever the parser answers. *)
Class StrToFloat := str_to_float : string → option float.

(** [float(v)]; [None] is the exception the [try] of the loop catches
    ([TypeError] on [None], [ValueError] on text, [OverflowError]). *)
Definition py_float `{StrToFloat} (v : pyval) : option float :=
  match v with
  | VNone => None
  | VInt n => F64.of_int n
  | VFloat f => Some f
  | VStr t => str_to_float t
  end.

(** ** The centroid table *)

Definition country_centroids : gmap string (float * float) :=
  <["DRC (Congo)" := ((-4.038333)%float, 21.758664%float)]>
  (<["South Africa" := ((-30.559482)%float, 22.937506%float)]>
  (<["Mozambique" := ((-18.665695)%float, 35.529562%float)]>
  (<["Namibia" := ((-22.9576)%float, 18.4904%float)]> ∅))).

(** [country_centroids[cname]] guarded by [cname in country_centroids]: the
    keys are all [str], so no other value is ever found. *)
Definition centroid_of (cname : pyval) : option (float * float) :=
  match cname with
  | VStr n => country_centroids !! n
  | _ => None
  end.

(** ** Correction events *)

Inductive Action : Type := swap_latlon | mismatch.

(** One entry of [corrections].  The two shapes of the Python dict share
    five keys; ['new'] is only in a swap entry and ['country_centroid'] only
    in a mismatch entry, as [c.get('new')] would show. *)
Record CorrectionEvent : Type := {
  SiteID : pyval;
  SiteName : pyval;
  CountryName : pyval;
  action : Action;
  old : float * float;
  new : option (float * float);
  country_centroid : option (float * float)
}.

(** ** The loop body, statement by statement

    Once the tests of an iteration are decided, what is left to run is a
    straight line of effects on the two mutable objects in play: appends to
    [corrections] and item assignments on the record [s].  [body] selects
    that line, [exec] runs it. *)

Inductive stmt : Type :=
  | Append (c : CorrectionEvent)       (* corrections.append(c) *)
  | SetItem (k : string) (v : pyval).  (* s[k] = v *)

Definition swap_note : string :=
  "Swapped lat/lon due to large mismatch with country centroid.".
Definition mismatch_note : string :=
  "Coordinate far from assigned country centroid; left unchanged for manual review.".

(** [abs(lat - c_lat) > 10 or abs(lon - c_lon) > 20] *)
Definition far (lat lon c_lat c_lon : float) : bool :=
  PrimFloat.ltb 10 (PrimFloat.abs (lat - c_lat)) ||
  PrimFloat.ltb 20 (PrimFloat.abs (lon - c_lon)).

(** [abs(lat - c_lat) + abs(lon - c_lon)] *)
Definition dist (lat lon c_lat c_lon : float) : float :=
  (PrimFloat.abs (lat - c_lat) + PrimFloat.abs (lon - c_lon))%float.

Definition body `{StrToFloat} (s : dict) : list stmt :=
  match py_float (get s "Latitude" (VInt 0)) with
  | None => []                                    (* except: ... continue *)
  | Some lat =>
    match py_float (get s "Longitude" (VInt 0)) with
    | None => []                                  (* except: ... continue *)
    | Some lon =>
      let cname := get s "CountryName" VNone in
      match centroid_of cname with
      | None => []
      | Some (c_lat, c_lon) =>
        if far lat lon c_lat c_lon then
          let swapped_lat := lon in
          let swapped_lon := lat in
          let dist_orig := dist lat lon c_lat c_lon in
          let dist_swapped := dist swapped_lat swapped_lon c_lat c_lon in
          if PrimFloat.ltb dist_swapped dist_orig then
            [ Append {| SiteID := get s "SiteID" VNone;
                        SiteName := get s "SiteName" VNone;
                        CountryName := cname;
                        action := swap_latlon;
                        old := (lat, lon);
                        new := Some (swapped_lat, swapped_lon);
                        country_centroid := None |};
              SetItem "Latitude" (VFloat swapped_lat);
              SetItem "Longitude" (VFloat swapped_lon);
              SetItem "Note" (VStr swap_note) ]
          else
            [ Append {| SiteID := get s "SiteID" VNone;
                        SiteName := get s "SiteName" VNone;
                        CountryName := cname;
                        action := mismatch;
                        old := (lat, lon);
                        new := None;
                        country_centroid := Some (c_lat, c_lon) |};
              SetItem "Note" (VStr mismatch_note) ]
        else []
      end
    end
  end.

(** The record under the loop variable and the log, as one state. *)
Definition state : Type := dict * list CorrectionEvent.

Definition exec (st : state) (i : stmt) : state :=
  match i with
  | Append c => (st.1, st.2 ++ [c])
  | SetItem k v => (<[k := v]> st.1, st.2)
  end.

Definition run (st : state) (p : list stmt) : state := foldl exec st p.

(** ** The loop *)

Record loop_state : Type := {
  corrections : list CorrectionEvent;
  corrected_sites : list dict
}.

(** One iteration of [for s in sites]: the body runs on [s] and the log,
    then [corrected_sites.append(s)] (on every path, the [except] included). *)
Definition iteration `{StrToFloat} (st : loop_state) (s : dict) : loop_state :=
  let st' := run (s, corrections st) (body s) in
  {| corrections := st'.2; corrected_sites := corrected_sites st ++ [st'.1] |}.

Definition correct_sites `{StrToFloat} (sites : list dict) : loop_state :=
  foldl iteration {| corrections := []; corrected_sites := [] |} sites.

(** What one record becomes, and the events it adds to an empty log. *)
Definition corrected `{StrToFloat} (s : dict) : dict := (run (s, []) (body s)).1.
Definition events `{StrToFloat} (s : dict) : list CorrectionEvent :=
  (run (s, []) (body s)).2.

(** The two entries the loop can append, and the hypothesis that both
    coordinates of a record convert. *)
Definition swap_event (s : dict) (lat lon : float) : CorrectionEvent :=
  {| SiteID := get s "SiteID" VNone;
     SiteName := get s "SiteName" VNone;
     CountryName := get s "CountryName" VNone;
     action := swap_latlon;
     old := (lat, lon);
     new := Some (lon, lat);
     country_centroid := None |}.

Definition mismatch_event (s : dict) (lat lon c_lat c_lon : float)
  : CorrectionEvent :=
  {| SiteID := get s "SiteID" VNone;
     SiteName := get s "SiteName" VNone;
     CountryName := get s "CountryName" VNone;
     action := mismatch;
     old := (lat, lon);
     new := None;
     country_centroid := Some (c_lat, c_lon) |}.

Definition parsed `{StrToFloat} (s : dict) (lat lon : float) : Prop :=
  py_float (get s "Latitude" (VInt 0)) = Some lat ∧
  py_float (get s "Longitude" (VInt 0)) = Some lon.

(** ** The decision taken for a record

    The loop never names its verdict; it is the path taken through the tests
    at lines 115, 119 and 127.  [classify] reads those tests off for a parsed
    pair and a centroid, [validate] for a whole record: [None] when a
    coordinate did not convert and the record left the iteration through the
    [except], a verdict otherwise (a country outside the table is not
    checked, hence [consistent]). *)

Inductive classification : Type :=
  | consistent
  | swap_correctable
  | unresolved_mismatch.

Definition classify (lat lon c_lat c_lon : float) : classification :=
  if far lat lon c_lat c_lon then
    if PrimFloat.ltb (dist lon lat c_lat c_lon) (dist lat lon c_lat c_lon)
    then swap_correctable
    else unresolved_mismatch
  else consistent.

Definition validate `{StrToFloat} (s : dict) : option classification :=
  match py_float (get s "Latitude" (VInt 0)) with
  | None => None
  | Some lat =>
    match py_float (get s "Longitude" (VInt 0)) with
    | None => None
    | Some lon =>
      match centroid_of (get s "CountryName" VNone) with
      | None => Some consistent
      | Some (c_lat, c_lon) => Some (classify lat lon c_lat c_lon)
      end
    end
  end.

(** ** The ways through an iteration

    Every record takes exactly one of five ways through the tests of the
    loop; the proofs go by cases on this view. *)
Inductive path `{StrToFloat} (s : dict) : Prop :=
  | path_except :
      py_float (get s "Latitude" (VInt 0)) = None ∨
      py_float (get s "Longitude" (VInt 0)) = None →
      path s
  | path_unknown lat lon :
      parsed s lat lon →
      centroid_of (get s "CountryName" VNone) = None →
      path s
  | path_near lat lon c_lat c_lon :
      parsed s lat lon →
      centroid_of (get s "CountryName" VNone) = Some (c_lat, c_lon) →
      far lat lon c_lat c_lon = false →
      path s
  | path_swap lat lon c_lat c_lon :
      parsed s lat lon →
      centroid_of (get s "CountryName" VNone) = Some (c_lat, c_lon) →
      far lat lon c_lat c_lon = true →
      PrimFloat.ltb (dist lon lat c_lat c_lon) (dist lat lon c_lat c_lon) = true →
      path s
  | path_mismatch lat lon c_lat c_lon :
      parsed s lat lon →
      centroid_of (get s "CountryName" VNone) = Some (c_lat, c_lon) →
      far lat lon c_lat c_lon = true →
      PrimFloat.ltb (dist lon lat c_lat c_lon) (dist lat lon c_lat c_lon) = false →
      path s.

(** ** The join with the reference tables

    [sites_df.merge(ref[[col]], left_on=key, right_index=True, how='left')]:
    every left row, in the order of the left frame, once for each row of the
    reference table whose index equals the row's key, with that row's [col];
    a left row that matches none is kept once with NaN for [col].  A
    reference table is the list of its rows, index value first; nothing
    keeps an index value from occurring twice ([minerals_df] is two CSV
    files concatenated).

    Identifiers are integers.  A key cell is an integer, or a float when the
    column has blanks (NaN matches no row).  On a frame without the key
    column the merge raises [KeyError], on a key column of text against the
    integer index [ValueError]: [None] here, for a key cell that is no
    number.

    The joined name goes under [col] when the left frame has no column of
    that label.  When it has one, pandas keeps both columns apart with its
    suffixes: the cell of the left frame moves to [col_x], the joined name
    goes under [col_y], and the record has no [col] key any more; the merge
    raises [MergeError] when the left frame has a [col_x] column as well,
    the label then occurring twice.  The records of one frame all carry the
    columns of the frame as keys, a blank cell being NaN, so that the
    columns are read off the row. *)

Definition key_of (row : dict) (key : string) : option (option Z) :=
  match row !! key with
  | Some (VInt n) => Some (Some n)
  | Some (VFloat f) => Some (F64.to_int f)
  | Some (VStr _) | Some VNone | None => None
  end.

Definition matching (k : option Z) (ref : list (Z * pyval)) : list (Z * pyval) :=
  filter (λ r, k = Some r.1) ref.

(** The record of a left row joined with the name [v]. *)
Definition joined (col : string) (v : pyval) (row : dict) : option dict :=
  match row !! col with
  | None => Some (<[col := v]> row)
  | Some cell =>
    if bool_decide (is_Some (row !! (col +:+ "_x"))) then None
    else Some (<[col +:+ "_y" := v]> (<[col +:+ "_x" := cell]> (delete col row)))
  end.

Definition merge_row (key col : string) (ref : list (Z * pyval)) (row : dict)
  : option (list dict) :=
  match key_of row key with
  | None => None
  | Some k =>
    mapM (λ v, joined col v row)
         match matching k ref with
         | [] => [ VFloat PrimFloat.nan ]
         | ms => ms.*2
         end
  end.

Fixpoint merge_left (df : list dict) (key col : string)
    (ref : list (Z * pyval)) : option (list dict) :=
  match df with
  | [] => Some []
  | row :: df =>
    match merge_row key col ref row, merge_left df key col ref with
    | Some rows, Some out => Some (rows ++ out)
    | _, _ => None
    end
  end.

(** Lines 90 to 141 and 161 to 163: both merges, [to_dict('records')], the
    loop; when a merge raises, the handler of the block leaves [sites]
    empty. *)
Definition load_sites `{StrToFloat} (sites_df : list dict)
    (minerals_df countries_df : list (Z * pyval)) : loop_state :=
  match merge_left sites_df "MineralID" "MineralName" minerals_df with
  | None => {| corrections := []; corrected_sites := [] |}
  | Some sites_df =>
    match merge_left sites_df "CountryID" "CountryName" countries_df with
    | None => {| corrections := []; corrected_sites := [] |}
    | Some sites_df => correct_sites sites_df
    end
  end.




(** ** A reading of [float()] on short decimal text

    Sign, digits, at most one point: when the digits make an integer below
    2^53 and at most 22 of them follow the point, numerator and power of ten
    are both exact floats and one division gives the nearest binary64, which
    is what the interpreter returns.  Anything else is refused; the instance
    serves to run the model on concrete rows. *)

Module Decimal.

Definition digit (a : ascii) : option Z :=
  let n := Z.of_N (N_of_ascii a) - 48 in
  if (0 <=? n) && (n <=? 9) then Some n else None.

Fixpoint digits (acc : Z) (l : list ascii) : option Z :=
  match l with
  | [] => Some acc
  | a :: l => match digit a with
              | Some d => digits (10 * acc + d) l
              | None => None
              end
  end.

Fixpoint split_point (l : list ascii) : list ascii * list ascii :=
  match l with
  | [] => ([], [])
  | a :: l => if Ascii.eqb a "."%char then ([], l)
              else let p := split_point l in (a :: p.1, p.2)
  end.

Definition unsigned (l : list ascii) : option float :=
  let p := split_point l in
  match p.1 ++ p.2 with
  | [] => None
  | ds =>
    match digits 0 ds with
    | Some m =>
      let k := Z.of_nat (length p.2) in
      if (m <? 2 ^ 53) && (k <=? 22) then
        match F64.of_int m, F64.of_int (10 ^ k) with
        | Some n, Some d => Some (n / d)%float
        | _, _ => None
        end
      else None
    | None => None
    end
  end.

Definition parse (t : string) : option float :=
  match list_ascii_of_string t with
  | a :: l =>
    if Ascii.eqb a "-"%char then PrimFloat.opp <$> unsigned l
    else if Ascii.eqb a "+"%char then unsigned l
    else unsigned (a :: l)
  | [] => None
  end.

End Decimal.

Definition decimal_reader : StrToFloat := Decimal.parse.

(** ** Rows to run the model on *)

Module Rows.

(** A South African site stored with latitude and longitude exchanged. *)
Definition south_africa : dict :=
  <["SiteID" := VInt 1]> (<["SiteName" := VStr "Kimberley"]>
  (<["CountryName" := VStr "South Africa"]>
  (<["Latitude" := VFloat 22.94]> (<["Longitude" := VFloat (-30.56)]> ∅)))).

(** A Namibian site whose two coordinates are equal. *)
Definition namibia : dict :=
  <["SiteID" := VInt 2]> (<["SiteName" := VStr "Tsumeb"]>
  (<["CountryName" := VStr "Namibia"]>
  (<["Latitude" := VFloat 5.0]> (<["Longitude" := VFloat 5.0]> ∅)))).

(** A site near Cape Town, coordinates read as text. *)
Definition cape_town : dict :=
  <["SiteID" := VInt 3]> (<["SiteName" := VStr "Cape Town"]>
  (<["CountryName" := VStr "South Africa"]>
  (<["Latitude" := VStr "-33.92"]> (<["Longitude" := VStr "18.42"]> ∅)))).

(** A site of a country outside the centroid table. *)
Definition australia : dict :=
  <["SiteID" := VInt 4]> (<["SiteName" := VStr "Kalgoorlie"]>
  (<["CountryName" := VStr "Australia"]>
  (<["Latitude" := VFloat (-30.75)]> (<["Longitude" := VFloat 121.47]> ∅)))).

(** A latitude cell that is not a number. *)
Definition bad_latitude : dict :=
  <["SiteID" := VInt 5]> (<["SiteName" := VStr "Phalaborwa"]>
  (<["CountryName" := VStr "South Africa"]>
  (<["Latitude" := VStr "n/a"]> (<["Longitude" := VFloat 31.14]> ∅)))).

(** A row of a frame that has no ['Latitude'] column. *)
Definition no_latitude : dict :=
  <["SiteID" := VInt 6]> (<["SiteName" := VStr "Upington"]>
  (<["CountryName" := VStr "South Africa"]>
  (<["Longitude" := VFloat 22.9]> ∅))).

(** A blank latitude cell, which [read_csv] turns into NaN. *)
Definition blank_latitude : dict :=
  <["SiteID" := VInt 7]> (<["SiteName" := VStr "Musina"]>
  (<["CountryName" := VStr "South Africa"]>
  (<["Latitude" := VFloat PrimFloat.nan]> (<["Longitude" := VFloat 100]> ∅)))).

(** A South African record whose transposed pair is nearer to the centroid
    and still more than 20 degrees of longitude away from it. *)
Definition far_both_ways : dict :=
  <["SiteID" := VInt 8]> (<["SiteName" := VStr "Richards Bay"]>
  (<["CountryName" := VStr "South Africa"]>
  (<["Latitude" := VFloat 60]> (<["Longitude" := VFloat (-30)]> ∅)))).

(** Raw rows of [sites.csv] and reference tables. *)
Definition raw1 : dict :=
  <["SiteID" := VInt 1]> (<["SiteName" := VStr "Kimberley"]>
  (<["MineralID" := VInt 1]> (<["CountryID" := VInt 2]>
  (<["Latitude" := VFloat 22.94]> (<["Longitude" := VFloat (-30.56)]> ∅))))).

Definition raw2 : dict :=
  <["SiteID" := VInt 2]> (<["SiteName" := VStr "Tsumeb"]>
  (<["MineralID" := VInt 9]> (<["CountryID" := VInt 4]>
  (<["Latitude" := VFloat 5.0]> (<["Longitude" := VFloat 5.0]> ∅))))).

Definition minerals : list (Z * pyval) :=
  [(1, VStr "Gold"); (2, VStr "Copper")].


Definition countries : list (Z * pyval) :=
  [(2, VStr "South Africa"); (4, VStr "Namibia")].

(** A row of a sites file that carries a ['CountryName'] column already. *)
Definition raw_named : dict := <["CountryName" := VStr "Namibia"]> raw1.

End Rows.

(** * The web application around the site list

    The views of [app.py] read and edit module-level objects: the session of
    the request, [PERMISSIONS], and the stores [minerals], [countries],
    [sites] and [insights].  A view is a function of the request and of the
    objects it touches; it returns the objects as it leaves them and what it
    answers.  What the views hand to Flask, folium and reportlab is kept as
    the arguments of the call. *)

Module App.

(** A decoded JSON body: [json.loads] gives [None], a [bool], an [int], a
    [float], a [str], a [list] or a [dict]; of a name written twice in an
    object the dict keeps the last value. *)
Inductive json_value : Type :=
  | JNull
  | JBool (b : bool)
  | JInt (n : Z)
  | JFloat (f : float)
  | JString (t : string)
  | JArray (l : list json_value)
  | JObject (members : list (string * json_value)).

(** [members[k]] of the dict made from the members of an object. *)
Fixpoint member (k : string) (members : list (string * json_value))
  : option json_value :=
  match members with
  | [] => None
  | (k', v) :: members =>
    match member k members with
    | Some w => Some w
    | None => if bool_decide (k' = k) then Some v else None
    end
  end.

(** [request]: the method, the form and the query string (both map names to
    text) and the body of a request sent as JSON: [json] is [None] when
    [request.is_json] is false, [Some None] when the body does not decode
    ([request.json] then raises [BadRequest]), the decoded value
    otherwise. *)
Record request : Type := {
  method : string;
  form : gmap string string;
  args : gmap string string;
  json : option (option json_value)
}.

(** What a view answers: a response (a page with its context, or a body
    with its status), a redirect to an endpoint, or an exception that leaves
    the view. *)
Inductive outcome (A : Type) : Type :=
  | Page (a : A)
  | Redirect (endpoint : string)
  | Raise.
Arguments Page {A} a.
Arguments Redirect {A} endpoint.
Arguments Raise {A}.

(** A value of [request.form.get(k)] as a cell: [None] when the field is
    not sent. *)
Definition cell (o : option string) : pyval :=
  match o with
  | Some t => VStr t
  | None => VNone
  end.

(** [v == t] for a text or [None] [t]: never true across types. *)
Definition eq_text (v : pyval) (t : option string) : bool :=
  match v, t with
  | VStr a, Some b => bool_decide (a = b)
  | VNone, None => true
  | _, _ => false
  end.

(** [str(t)] inside an f-string. *)
Definition shown (t : option string) : string := default "None" t.

(** ** Theme (lines 12 to 31) *)

(** [inject_theme]: the ['theme'] entry of the template context. *)
Definition inject_theme (session : dict) : pyval := get session "theme" VNone.

(** [request.form.get('theme') or (request.json.get('theme') if
    request.is_json else None)]: an empty form field is falsy, and the body
    is looked at only then.  [request.json.get] is the method of a dict: on
    a body that is no object it raises [AttributeError].  The outer [None]
    is an exception; [Some JNull] is Python's [None]. *)
Definition requested_theme (req : request) : option json_value :=
  match form req !! "theme" with
  | Some (String a t) => Some (JString (String a t))
  | Some EmptyString | None =>
    match json req with
    | Some (Some (JObject members)) => Some (default JNull (member "theme" members))
    | Some (Some _) => None
    | Some None => None
    | None => Some JNull
    end
  end.

(** A value that is no text and not [None] is not in the tuple of line 23,
    whatever it is. *)
Definition set_theme (session : dict) (req : request)
  : dict * outcome (string * Z) :=
  match requested_theme req with
  | None => (session, Raise)
  | Some theme =>
    match theme with
    | JNull => (delete "theme" session, Page ("", 204))
    | JString t =>
      if bool_decide (t ∈ ["light"; "dark"; "system"]) then
        if bool_decide (t = "system") then (delete "theme" session, Page ("", 204))
        else (<["theme" := VStr t]> session, Page ("", 204))
      else (session, Page ("Invalid theme", 400))
    | JBool _ | JInt _ | JFloat _ | JArray _ | JObject _ =>
      (session, Page ("Invalid theme", 400))
    end
  end.

(** The themes a session is meant to hold: none, ['light'] or ['dark']. *)
Definition theme_stored (session : dict) : Prop :=
  session !! "theme" = None ∨
  session !! "theme" = Some (VStr "light") ∨
  session !! "theme" = Some (VStr "dark").

(** ** Roles and permissions (lines 69 to 87) *)

Record role_row : Type := {
  RoleID : Z;
  RoleName : string;
  Permissions : string
}.

(** The list a role name gets; the ['Permissions'] cell is read into
    [perms_str] and not used. *)
Definition role_permissions (role_name : string) : list string :=
  if bool_decide (role_name = "Administrator") then ["all"]
  else if bool_decide (role_name = "Investor") then
    ["profiles"; "charts"; "production"]
  else if bool_decide (role_name = "Researcher") then
    ["database"; "export"; "insights"; "profiles"; "map"]
  else [].

(** The loop of lines 72 to 84 on a frame read with its columns, the names
    being text. *)
Definition PERMISSIONS (roles_df : list role_row) : gmap string (list string) :=
  foldl (λ P row, <[RoleName row := role_permissions (RoleName row)]> P)
        ∅ roles_df.

(** The record [iterrows] yields for a row of such a frame. *)
Definition role_record (row : role_row) : dict :=
  <["RoleID" := VInt (RoleID row)]>
  (<["RoleName" := VStr (RoleName row)]>
  (<["Permissions" := VStr (Permissions row)]> ∅)).

(** One iteration on any record: [row['RoleName']] and [row['Permissions']]
    raise [KeyError] ([None]) on a frame without the column.  A name that is
    no text, a blank cell for one, is given the empty list under a key no
    session role can equal; [PERMISSIONS.get(role, [])], the only way the
    table is read, answers the same without the entry, and it is left
    out. *)
Definition set_role (P : gmap string (list string)) (row : dict)
  : option (gmap string (list string)) :=
  match row !! "RoleName", row !! "Permissions" with
  | Some role_name, Some perms_str =>
    Some match role_name with
         | VStr n => <[n := role_permissions n]> P
         | VNone | VInt _ | VFloat _ => P
         end
  | _, _ => None
  end.

(** Lines 69 to 87 as a whole.  [roles_csv] is [None] when [read_csv]
    raises, the records of the frame otherwise.  An exception anywhere in
    the block is caught by its handler, which leaves the table empty
    whatever the loop had stored. *)
Definition load_roles (roles_csv : option (list dict)) : gmap string (list string) :=
  match roles_csv with
  | None => ∅
  | Some rows => default ∅ (foldl (λ P row, P ≫= λ P, set_role P row) (Some ∅) rows)
  end.

(** [PERMISSIONS.get(role, [])]; the keys are all text. *)
Definition granted (P : gmap string (list string)) (role : pyval) : list string :=
  match role with
  | VStr r => default [] (P !! r)
  | _ => []
  end.

(** [x in PERMISSIONS.get(role, [])] *)
Definition may (P : gmap string (list string)) (role : pyval) (x : string) : bool :=
  bool_decide (x ∈ granted P role).

(** The test that opens most views: [if 'user' not in session or (<refused>):
    return redirect(url_for('dashboard'))], where [<refused>] reads
    [session['role']], a [KeyError] when the session has none.  [None] lets
    the view go on. *)
Definition guard {A} (session : dict) (refused : pyval → bool)
  : option (outcome A) :=
  match session !! "user" with
  | None => Some (Redirect "dashboard")
  | Some _ =>
    match session !! "role" with
    | None => Some Raise
    | Some role => if refused role then Some (Redirect "dashboard") else None
    end
  end.

(** A session the administration panel lets in. *)
Definition lets_in (P : gmap string (list string)) (session : dict) : Prop :=
  is_Some (session !! "user") ∧
  ∃ role, session !! "role" = Some role ∧ may P role "all" = true.

(** ** Entry, login and logout (lines 165 to 192) *)

Definition index (session : dict) : outcome unit :=
  match session !! "user" with
  | Some _ => Redirect "dashboard"
  | None => Redirect "login"
  end.

Record user_row : Type := {
  PasswordHash : pyval;
  user_RoleID : Z
}.

(** [roles_df[roles_df['RoleID'] == role_id]['RoleName'].iloc[0] if not
    roles_df.empty else 'Unknown']: [None] is the [IndexError] of [iloc[0]]
    on an empty selection. *)
Definition role_name_of (roles_df : list role_row) (role_id : Z) : option string :=
  match roles_df with
  | [] => Some "Unknown"
  | _ => RoleName <$> head (filter (λ row, RoleID row = role_id) roles_df)
  end.

(** The page of [login]: the error it shows, if any. *)
Definition login (users : gmap string user_row) (roles_df : list role_row)
    (session : dict) (req : request) : dict * outcome (option string) :=
  if bool_decide (method req = "POST") then
    match form req !! "username" with
    | None => (session, Raise)
    | Some username =>
      match form req !! "password" with
      | None => (session, Raise)
      | Some password =>
        match users !! username with
        | Some u =>
          if eq_text (PasswordHash u) (Some password) then
            let session := <["user" := VStr username]> session in
            match role_name_of roles_df (user_RoleID u) with
            | None => (session, Raise)
            | Some role_name =>
              (<["role" := VStr role_name]> session, Redirect "dashboard")
            end
          else (session, Page (Some "Invalid credentials. Try again."))
        | None => (session, Page (Some "Invalid credentials. Try again."))
        end
      end
    end
  else (session, Page None).

Definition logout (session : dict) : dict * outcome unit :=
  (∅, Redirect "login").

(** ** The stores *)

Record insight_row : Type := {
  user : pyval;
  insight : string;
  type : string
}.

Record store : Type := {
  minerals : gmap string dict;
  countries : gmap string dict;
  sites : list dict;
  insights : list insight_row
}.

(** ** Dashboard (lines 195 to 216) *)

(** The context of the dashboard; the [success] text of the query string
    goes to the template as it came and is left out. *)
Record dashboard_page : Type := {
  role : pyval;
  features : list string;
  is_admin : bool;
  num_countries : nat;
  num_minerals : nat;
  num_sites : nat
}.

Definition dashboard (P : gmap string (list string)) (session : dict)
    (st : store) : outcome dashboard_page :=
  match session !! "user" with
  | None => Redirect "login"
  | Some _ =>
    match session !! "role" with
    | None => Raise
    | Some role =>
      let allowed_features := [] in
      let allowed_features :=
        if may P role "all" || may P role "database"
        then allowed_features ++ ["database"] else allowed_features in
      let allowed_features :=
        if may P role "all" || may P role "profiles"
        then allowed_features ++ ["profiles"] else allowed_features in
      let allowed_features :=
        if may P role "all" || may P role "charts"
        then allowed_features ++ ["charts"] else allowed_features in
      let allowed_features :=
        if may P role "all" || may P role "map"
        then allowed_features ++ ["map"] else allowed_features in
      Page {| role := role;
              features := allowed_features;
              is_admin := may P role "all";
              num_countries := size (countries st);
              num_minerals := size (minerals st);
              num_sites := length (sites st) |}
    end
  end.

(** ** The administration panel (lines 220 to 304) *)

(** [int(t)] for a [str] is the interpreter's parser, as [float(t)] is. *)
Class StrToInt := str_to_int : string → option Z.

(** [int(v)] for a form field: [TypeError] on [None]. *)
Definition py_int `{StrToInt} (t : option string) : option Z :=
  match t with
  | Some t => str_to_int t
  | None => None
  end.

Definition set_minerals (st : store) (m : gmap string dict) : store :=
  {| minerals := m; countries := countries st; sites := sites st;
     insights := insights st |}.
Definition set_countries (st : store) (c : gmap string dict) : store :=
  {| minerals := minerals st; countries := c; sites := sites st;
     insights := insights st |}.
Definition set_sites (st : store) (l : list dict) : store :=
  {| minerals := minerals st; countries := countries st; sites := l;
     insights := insights st |}.
Definition set_insights (st : store) (l : list insight_row) : store :=
  {| minerals := minerals st; countries := countries st; sites := sites st;
     insights := l |}.

(** The loop of [delete_site]: [del sites[i]] at the first record whose
    ['SiteName'] equals the field, then [break]; [None] when the loop ends
    with [found] still false. *)
Fixpoint delete_first (site_name : option string) (l : list dict)
  : option (list dict) :=
  match l with
  | [] => None
  | s :: l =>
    if eq_text (get s "SiteName" VNone) site_name then Some l
    else (s ::.) <$> delete_first site_name l
  end.

(** The dict literal of [add_site]; the three conversions run in this order
    and any of them may raise. *)
Definition new_site `{StrToFloat} `{StrToInt} (site_name country_name mineral_name : string)
    (latitude longitude production : option string) : option dict :=
  match py_float (cell latitude) with
  | None => None
  | Some lat =>
    match py_float (cell longitude) with
    | None => None
    | Some lon =>
      match py_int production with
      | None => None
      | Some tonnes =>
        Some (<["SiteName" := VStr site_name]>
             (<["CountryName" := VStr country_name]>
             (<["MineralName" := VStr mineral_name]>
             (<["Latitude" := VFloat lat]>
             (<["Longitude" := VFloat lon]>
             (<["Production_tonnes" := VInt tonnes]> ∅))))))
      end
    end
  end.

Definition edit_mineral (f : gmap string string) (st : store)
  : store * outcome (option string) :=
  let mineral_name := f !! "mineral_name" in
  let description := f !! "description" in
  let price := f !! "market_price" in
  match mineral_name ≫= λ n, (n,.) <$> minerals st !! n with
  | Some (n, info) =>
    (set_minerals st
       (<[n := <["MarketPriceUSD_per_tonne" := cell price]>
                 (<["Description" := cell description]> info)]> (minerals st)),
     Page (Some ("Updated " +:+ n +:+
                 ". (Note: Changes are in-memory and not persisted to CSV.)")))
  | None =>
    (st, Page (Some ("Mineral " +:+ shown mineral_name +:+ " not found.")))
  end.

Definition delete_mineral (f : gmap string string) (st : store)
  : store * outcome (option string) :=
  let mineral_name := f !! "mineral_name" in
  match mineral_name ≫= λ n, (n,.) <$> minerals st !! n with
  | Some (n, _) =>
    (set_minerals st (delete n (minerals st)),
     Page (Some ("Deleted " +:+ n +:+ ". (In-memory only.)")))
  | None =>
    (st, Page (Some ("Mineral " +:+ shown mineral_name +:+ " not found.")))
  end.

Definition add_country (f : gmap string string) (st : store)
  : store * outcome (option string) :=
  let country_name := f !! "country_name" in
  let gdp := f !! "gdp" in
  let mining_revenue := f !! "mining_revenue" in
  let key_projects := f !! "key_projects" in
  match country_name with
  | Some (String a t) =>
    let n := String a t in
    match countries st !! n with
    | None =>
      (set_countries st
         (<[n := <["GDP_BillionUSD" := cell gdp]>
                   (<["MiningRevenue_BillionUSD" := cell mining_revenue]>
                   (<["KeyProjects" := cell key_projects]> ∅))]> (countries st)),
       Page (Some ("Added country " +:+ n +:+ ". (In-memory only.)")))
    | Some _ =>
      (st, Page (Some ("Country " +:+ n +:+ " already exists or invalid.")))
    end
  | Some EmptyString | None =>
    (st, Page (Some ("Country " +:+ shown country_name +:+
                     " already exists or invalid.")))
  end.

Definition delete_country (f : gmap string string) (st : store)
  : store * outcome (option string) :=
  let country_name := f !! "country_name" in
  match country_name ≫= λ n, (n,.) <$> countries st !! n with
  | Some (n, _) =>
    (set_countries st (delete n (countries st)),
     Page (Some ("Deleted country " +:+ n +:+ ". (In-memory only.)")))
  | None =>
    (st, Page (Some ("Country " +:+ shown country_name +:+ " not found.")))
  end.

Definition add_site `{StrToFloat} `{StrToInt} (f : gmap string string) (st : store)
  : store * outcome (option string) :=
  let site_name := f !! "site_name" in
  let country_name := f !! "site_country" in
  let mineral_name := f !! "site_mineral" in
  let latitude := f !! "latitude" in
  let longitude := f !! "longitude" in
  let production := f !! "production" in
  let invalid := (st, Page (Some "Invalid site data or missing country/mineral.")) in
  match site_name, country_name, mineral_name with
  | Some (String a t), Some c, Some m =>
    if bool_decide (is_Some (countries st !! c)) &&
       bool_decide (is_Some (minerals st !! m)) then
      match new_site (String a t) c m latitude longitude production with
      | None => (st, Raise)
      | Some s =>
        (set_sites st (sites st ++ [s]),
         Page (Some ("Added site " +:+ String a t +:+ ". (In-memory only.)")))
      end
    else invalid
  | _, _, _ => invalid
  end.

Definition delete_site (f : gmap string string) (st : store)
  : store * outcome (option string) :=
  let site_name := f !! "site_name" in
  match delete_first site_name (sites st) with
  | Some l =>
    (set_sites st l,
     Page (Some ("Deleted site " +:+ shown site_name +:+ ". (In-memory only.)")))
  | None => (st, Page (Some ("Site " +:+ shown site_name +:+ " not found.")))
  end.

Definition admin `{StrToFloat} `{StrToInt} (P : gmap string (list string))
    (session : dict) (req : request) (st : store)
  : store * outcome (option string) :=
  match guard session (λ role, negb (may P role "all")) with
  | Some out => (st, out)
  | None =>
    if bool_decide (method req = "POST") then
      let action := form req !! "action" in
      if bool_decide (action = Some "edit_mineral") then edit_mineral (form req) st
      else if bool_decide (action = Some "delete_mineral") then
        delete_mineral (form req) st
      else if bool_decide (action = Some "add_country") then
        add_country (form req) st
      else if bool_decide (action = Some "delete_country") then
        delete_country (form req) st
      else if bool_decide (action = Some "add_site") then add_site (form req) st
      else if bool_decide (action = Some "delete_site") then
        delete_site (form req) st
      else (st, Page None)
    else (st, Page None)
  end.

(** ** Search and insights (lines 307 to 331 and 382 to 403) *)

(** [str.lower] and [str.strip] are the interpreter's. *)
Class PyText := {
  lower : string → string;
  strip : string → string
}.

(** [needle in hay] on text. *)
Fixpoint contains (needle hay : string) : bool :=
  String.prefix needle hay ||
  match hay with
  | EmptyString => false
  | String _ hay => contains needle hay
  end.

(** The test of the comprehension for one entry, [field] being
    ['Description'] or ['KeyProjects']: the second disjunct calls [.lower()]
    on the cell, an [AttributeError] ([None] here) when the cell is not
    text; it is not evaluated when the name matches. *)
Definition entry_matches `{PyText} (field : string) (search_query k : string)
    (v : dict) : option bool :=
  if contains search_query (lower k) then Some true
  else match get v field (VStr "") with
       | VStr d => Some (contains search_query (lower d))
       | _ => None
       end.

(** [filtered = table], then the comprehension when the query is not
    empty. *)
Definition search `{PyText} (field : string) (search_query : string)
    (table : gmap string dict) : option (gmap string dict) :=
  match search_query with
  | EmptyString => Some table
  | _ =>
    if bool_decide (map_Forall (λ k v, is_Some (entry_matches field search_query k v))
                               table)
    then Some (filter (λ kv, entry_matches field search_query kv.1 kv.2 = Some true)
                      table)
    else None
  end.

Record database_page : Type := {
  listed : gmap string dict;
  shown_insights : list insight_row;
  message : option string;
  search_query : string
}.

(** The body shared, line for line, by [mineral_database] and
    [country_profiles]: [feature] is the permission asked, [field] the cell
    searched, [kind] the ['type'] given to a new insight. *)
Definition database_view `{PyText} (feature field kind : string)
    (table : store → gmap string dict)
    (P : gmap string (list string)) (session : dict) (req : request)
    (st : store) : store * outcome database_page :=
  match guard session (λ role, negb (may P role feature) && negb (may P role "all")) with
  | Some out => (st, out)
  | None =>
    let q := lower (strip (default "" (args req !! "search"))) in
    match search field q (table st) with
    | None => (st, Raise)
    | Some filtered =>
      let '(st, message) :=
        if bool_decide (method req = "POST") &&
           bool_decide (is_Some (form req !! "insight")) then
          let user := get session "user" (VStr "unknown") in
          let role := get session "role" (VStr "") in
          if eq_text role (Some "Researcher") || may P role "insights" then
            match form req !! "insight" with
            | Some (String a t) =>
              (set_insights st
                 (insights st ++
                    [{| user := user; insight := String a t; type := kind |}]),
               Some "Insight added.")
            | Some EmptyString | None => (st, None)
            end
          else (st, Some "You do not have permission to add insights.")
        else (st, None) in
      (st, Page {| listed := filtered;
                   shown_insights :=
                     filter (λ i, type i = kind) (insights st);
                   message := message;
                   search_query := q |})
    end
  end.

Definition mineral_database `{PyText} :=
  database_view "database" "Description" "mineral" minerals.

Definition country_profiles `{PyText} :=
  database_view "profiles" "KeyProjects" "country" countries.

(** ** The PDF exports (lines 333 to 379) *)

(** The calls made on the canvas; [A] is what a line is drawn from. *)
Inductive canvas_op (A : Type) : Type :=
  | drawString (x y : Z) (line : A)
  | showPage.
Arguments drawString {A} x y line.
Arguments showPage {A}.

(** The loop over the entries, entered with the pen at [y]. *)
Fixpoint draw_entries {A} (y : Z) (entries : list A) : list (canvas_op A) :=
  match entries with
  | [] => []
  | e :: entries =>
    drawString 30 y e ::
    let y := y - 20 in
    if y <? 50 then showPage :: draw_entries 750 entries
    else draw_entries y entries
  end.

(** The title, then the entries from 30 points lower. *)
Definition draw_export {A} (title : A) (entries : list A) : list (canvas_op A) :=
  let y := 750 in
  drawString 30 y title :: draw_entries (y - 30) entries.

(** The lines a sequence of calls draws, and the number of pages it
    closes. *)
Definition lines_drawn {A} (ops : list (canvas_op A)) : list A :=
  omap (λ op, match op with
              | drawString _ _ line => Some line
              | showPage => None
              end) ops.

Definition pages_closed {A} (ops : list (canvas_op A)) : nat :=
  length (omap (λ op, match op with
                      | drawString _ _ _ => None
                      | showPage => Some ()
                      end) ops).

(** A line of an export: its title or the entry it is formatted from. *)
Inductive export_line : Type :=
  | Title (t : string)
  | Entry (name : string) (info : dict).

(** [download_minerals_pdf] and [download_countries_pdf] differ by the
    title and the table.  The finite map does not keep the order in which
    the dict yields its entries; the layout depends on their number only. *)
Definition download_pdf (title : string) (table : store → gmap string dict)
    (P : gmap string (list string)) (session : dict) (st : store)
  : outcome (list (canvas_op export_line)) :=
  match guard session (λ role, negb (eq_text role (Some "Researcher")) &&
                                negb (may P role "all")) with
  | Some out => out
  | None =>
    Page (draw_export (Title title)
            ((λ kv, Entry kv.1 kv.2) <$> map_to_list (table st)))
  end.

Definition download_minerals_pdf := download_pdf "Mineral Data Export" minerals.
Definition download_countries_pdf := download_pdf "Country Data Export" countries.

(** ** The map (lines 467 to 488) *)

(** The arguments of one [folium.Marker]: the location pair and the four
    values its popup is formatted from. *)
Record marker : Type := {
  location : pyval * pyval;
  popup_site : pyval;
  popup_mineral : pyval;
  popup_country : pyval;
  popup_tonnes : pyval
}.

(** [site['Latitude']], [site['Longitude']], [site['SiteName']] and
    [site['Production_tonnes']] raise [KeyError] on a record without the
    key; the other two are read with a default. *)
Definition marker_of (site : dict) : option marker :=
  match site !! "Latitude", site !! "Longitude",
        site !! "SiteName", site !! "Production_tonnes" with
  | Some lat, Some lon, Some name, Some tonnes =>
    Some {| location := (lat, lon);
            popup_site := name;
            popup_mineral := get site "MineralName" (VStr "Unknown");
            popup_country := get site "CountryName" (VStr "Unknown");
            popup_tonnes := tonnes |}
  | _, _, _, _ => None
  end.

(** [folium.Marker] checks the location it is given and raises
    [ValueError] on one it refuses, a coordinate that is NaN or no number.
    The check is folium's, not code of the program: an interface here, as
    [float()] is, and the statements hold whatever it answers. *)
Class MarkerCheck := valid_location : pyval * pyval → bool.

(** One iteration of the loop at line 485: the location list and the popup
    text are evaluated, then [folium.Marker] is called on them, so that the
    markers of the sites before are placed when a site raises. *)
Definition place `{MarkerCheck} (site : dict) : option marker :=
  match marker_of site with
  | Some mk => if valid_location (location mk) then Some mk else None
  | None => None
  end.

Definition filtered_sites (mineral_filter : string) (l : list dict) : list dict :=
  if bool_decide (mineral_filter = "all") then l
  else filter (λ s, eq_text (get s "MineralName" VNone) (Some mineral_filter) = true) l.

(** The page is the list of the markers placed; rendering the map and the
    template is left out. *)
Definition geographical_map `{MarkerCheck} (P : gmap string (list string))
    (session : dict) (req : request) (st : store) : outcome (list marker) :=
  match guard session (λ role, negb (may P role "map") && negb (may P role "all")) with
  | Some out => out
  | None =>
    let mineral_filter := default "all" (args req !! "mineral") in
    match mapM place (filtered_sites mineral_filter (sites st)) with
    | Some markers => Page markers
    | None => Raise
    end
  end.

End App.

(** * What the loader reports (lines 142 to 160) *)

(** The lines printed and the file written once the loop is over.  Whether
    [to_csv] succeeds is the file system's answer, [csv_ok]. *)
Inductive sink_op : Type :=
  | PrintHeader
  | PrintSwapped (c : CorrectionEvent)
  | PrintMismatch (c : CorrectionEvent)
  | ToCsv (path : string) (rows : list dict)
  | PrintWrote
  | PrintFailed.

Definition report_line (c : CorrectionEvent) : sink_op :=
  match action c with
  | swap_latlon => PrintSwapped c
  | mismatch => PrintMismatch c
  end.

Definition report (st : loop_state) (csv_ok : bool) : list sink_op :=
  match corrections st with
  | [] => []
  | _ =>
    PrintHeader :: (report_line <$> corrections st) ++
    [ToCsv "data/sites_fixed.csv" (corrected_sites st);
     if csv_ok then PrintWrote else PrintFailed]
  end.

(** * Readers and data to run the application on *)

(** Readings of the interpreter's text functions on plain ASCII text, to
    run the model on concrete requests: [int()] on an optional sign and
    digits, [lower] on the letters A to Z, [strip] on blanks. *)
Module Reader.

Definition parse_int (t : string) : option Z :=
  match list_ascii_of_string t with
  | a :: l =>
    if Ascii.eqb a "-"%char then
      match l with [] => None | _ => Z.opp <$> Decimal.digits 0 l end
    else if Ascii.eqb a "+"%char then
      match l with [] => None | _ => Decimal.digits 0 l end
    else Decimal.digits 0 (a :: l)
  | [] => None
  end.

Definition lower_ascii (a : ascii) : ascii :=
  let n := N_of_ascii a in
  if (65 <=? n)%N && (n <=? 90)%N then ascii_of_N (n + 32) else a.

Fixpoint lower (t : string) : string :=
  match t with
  | EmptyString => EmptyString
  | String a t => String (lower_ascii a) (lower t)
  end.

Fixpoint lstrip (t : string) : string :=
  match t with
  | String a t' => if Ascii.eqb a " "%char then lstrip t' else t
  | EmptyString => EmptyString
  end.

Definition strip (t : string) : string :=
  String.rev (lstrip (String.rev (lstrip t))).

Definition int_reader : App.StrToInt := parse_int.
Definition text : App.PyText := {| App.lower := lower; App.strip := strip |}.

(** The check of folium's [validate_location]: both coordinates convert
    with [float()] and neither is NaN. *)
Definition number (v : pyval) : bool :=
  match py_float (H := decimal_reader) v with
  | Some f => negb (PrimFloat.is_nan f)
  | None => false
  end.

Definition location_check : App.MarkerCheck := λ l, number l.1 && number l.2.

End Reader.

Module Demo.

Definition roles_df : list App.role_row :=
  [ {| App.RoleID := 1; App.RoleName := "Administrator"; App.Permissions := "all" |};
    {| App.RoleID := 2; App.RoleName := "Investor"; App.Permissions := "view" |};
    {| App.RoleID := 3; App.RoleName := "Researcher"; App.Permissions := "view,export" |} ].

Definition users : gmap string App.user_row :=
  <["admin01" := {| App.PasswordHash := VStr "admin123"; App.user_RoleID := 1 |}]>
  (<["res01" := {| App.PasswordHash := VStr "research"; App.user_RoleID := 3 |}]> ∅).

Definition session_of (user role : string) : dict :=
  <["user" := VStr user]> (<["role" := VStr role]> ∅).

Definition administrator : dict := session_of "admin01" "Administrator".
Definition researcher : dict := session_of "res01" "Researcher".
Definition investor : dict := session_of "inv01" "Investor".

Definition post (fields : list (string * string)) : App.request :=
  {| App.method := "POST"; App.form := list_to_map fields;
     App.args := ∅; App.json := None |}.

Definition query (fields : list (string * string)) : App.request :=
  {| App.method := "GET"; App.form := ∅;
     App.args := list_to_map fields; App.json := None |}.

Definition gold : dict :=
  <["Description" := VStr "Precious metal"]>
  (<["MarketPriceUSD_per_tonne" := VInt 60000000]> ∅).

(** A mineral whose description cell was blank in the file. *)
Definition cobalt : dict :=
  <["Description" := VFloat PrimFloat.nan]>
  (<["MarketPriceUSD_per_tonne" := VInt 33000]> ∅).

Definition south_africa : dict :=
  <["GDP_BillionUSD" := VInt 405]>
  (<["MiningRevenue_BillionUSD" := VInt 25]>
  (<["KeyProjects" := VStr "Kimberley"]> ∅)).

(** A site as the loader leaves it, and one with the same name. *)
Definition kimberley : dict :=
  <["SiteID" := VInt 1]> (<["SiteName" := VStr "Kimberley"]>
  (<["MineralName" := VStr "Gold"]> (<["CountryName" := VStr "South Africa"]>
  (<["Latitude" := VFloat 22.94]> (<["Longitude" := VFloat (-30.56)]>
  (<["Production_tonnes" := VInt 1200]> ∅)))))).

Definition kimberley_cobalt : dict :=
  <["MineralName" := VStr "Cobalt"]> (<["SiteID" := VInt 2]> kimberley).

(** A site without a production cell. *)
Definition tsumeb : dict :=
  <["SiteID" := VInt 3]> (<["SiteName" := VStr "Tsumeb"]>
  (<["MineralName" := VStr "Gold"]> (<["CountryName" := VStr "Namibia"]>
  (<["Latitude" := VFloat 5.0]> (<["Longitude" := VFloat 5.0]> ∅))))).

(** A site whose latitude cell was blank in the file. *)
Definition musina : dict :=
  <["SiteID" := VInt 7]> (<["SiteName" := VStr "Musina"]>
  (<["MineralName" := VStr "Copper"]> (<["CountryName" := VStr "Zambia"]>
  (<["Latitude" := VFloat PrimFloat.nan]> (<["Longitude" := VFloat 30.05]>
  (<["Production_tonnes" := VInt 800]> ∅)))))).

Definition store : App.store :=
  {| App.minerals := <["Gold" := gold]> (<["Cobalt" := cobalt]> ∅);
     App.countries := <["South Africa" := south_africa]> ∅;
     App.sites := [corrected (H := decimal_reader) kimberley; kimberley_cobalt;
                   kimberley];
     App.insights := [] |}.

End Demo.

(** Closed goals are settled by running the model. *)
Ltac evaluated := vm_compute; repeat split; reflexivity.

(** ** Binary64 comparisons

    Python's [<] and [<=] on floats are the IEEE predicates.  The two facts
    below are all the arithmetic the development uses: a strict comparison
    excludes the converse one, in its strict and in its large form.  NaN
    compares false with everything, which both facts allow. *)

Module F64Facts.

Lemma compare_cont_opp (m1 m2 : positive) (c : comparison) :
  Pos.compare_cont (CompOpp c) m2 m1 = CompOpp (Pos.compare_cont c m1 m2).
Proof. symmetry. apply Pos.compare_cont_antisym. Qed.

Lemma SFcompare_swap (x y : spec_float) (c : comparison) :
  SFcompare x y = Some c → SFcompare y x = Some (CompOpp c).
Proof.
  destruct x as [sx|sx| |sx mx ex], y as [sy|sy| |sy my ey]; simpl;
    try discriminate;
    try (intros [= <-]; repeat
           match goal with b : bool |- _ => destruct b end; reflexivity).
  intros [= <-]. f_equal.
  destruct sx, sy; simpl; try reflexivity;
    rewrite (Z.compare_antisym ex ey);
    destruct (ex ?= ey)%Z; simpl; try reflexivity;
    rewrite <- (compare_cont_opp mx my Eq); simpl;
    try rewrite CompOpp_involutive; reflexivity.
Qed.

Lemma ltb_asym (a b : float) :
  PrimFloat.ltb a b = true → PrimFloat.ltb b a = false.
Proof.
  rewrite !ltb_spec. unfold SFltb.
  destruct (SFcompare (Prim2SF a) (Prim2SF b)) as [c|] eqn:E; [|discriminate].
  rewrite (SFcompare_swap _ _ _ E). by destruct c.
Qed.

Lemma leb_not_gt (a b : float) :
  PrimFloat.leb a b = true → PrimFloat.ltb b a = false.
Proof.
  rewrite leb_spec, ltb_spec. unfold SFleb, SFltb.
  destruct (SFcompare (Prim2SF a) (Prim2SF b)) as [c|] eqn:E; [|discriminate].
  rewrite (SFcompare_swap _ _ _ E). by destruct c.
Qed.

End F64Facts.

(** ** Running a body *)

Section Properties.
Context `{!StrToFloat}.

Implicit Types (s : dict) (c : CorrectionEvent) (p q : list stmt).
Implicit Types (lat lon c_lat c_lon : float).

Lemma run_app (st : state) p q : run st (p ++ q) = run (run st p) q.
Proof. apply foldl_app. Qed.

(** The log a body finds only grows at its end; the record does not depend
    on it. *)
Lemma run_log s (log : list CorrectionEvent) p :
  run (s, log) p = ((run (s, []) p).1, log ++ (run (s, []) p).2).
Proof.
  induction p as [|i p IH] using rev_ind.
  - simpl. by rewrite app_nil_r.
  - rewrite !run_app, IH. destruct i; simpl; [|done].
    by rewrite app_assoc.
Qed.

Lemma iteration_unfold (st : loop_state) s :
  iteration st s =
  {| corrections := corrections st ++ events s;
     corrected_sites := corrected_sites st ++ [corrected s] |}.
Proof. unfold iteration, events, corrected. by rewrite run_log. Qed.

Lemma correct_sites_snoc (sites : list dict) s :
  correct_sites (sites ++ [s]) = iteration (correct_sites sites) s.
Proof. unfold correct_sites. by rewrite foldl_app. Qed.

(** The loop is a map on the records and a concatenation on the log. *)
Lemma correct_sites_unfold (sites : list dict) :
  correct_sites sites =
  {| corrections := sites ≫= events; corrected_sites := corrected <$> sites |}.
Proof.
  induction sites as [|s sites IH] using rev_ind; [done|].
  rewrite correct_sites_snoc, iteration_unfold, IH. simpl.
  rewrite fmap_app, bind_app. simpl. by rewrite app_nil_r.
Qed.

(** A record that appends nothing leaves the log of a run as if it were
    not there, and stands in the output at its own place. *)
Lemma correct_sites_silent (before after : list dict) s :
  corrected s = s → events s = [] →
  correct_sites (before ++ s :: after) =
  {| corrections := corrections (correct_sites before) ++
                    corrections (correct_sites after);
     corrected_sites := corrected_sites (correct_sites before) ++
                        s :: corrected_sites (correct_sites after) |}.
Proof.
  intros Es Ee. rewrite !correct_sites_unfold. simpl.
  by rewrite bind_app, bind_cons, fmap_app, fmap_cons, Es, Ee.
Qed.

(** Any record stands in the output at its own place, and its events in
    the log between those of the records before it and after it. *)
Lemma correct_sites_at (before after : list dict) s :
  correct_sites (before ++ s :: after) =
  {| corrections := corrections (correct_sites before) ++
                    events s ++ corrections (correct_sites after);
     corrected_sites := corrected_sites (correct_sites before) ++
                        corrected s :: corrected_sites (correct_sites after) |}.
Proof.
  rewrite !correct_sites_unfold. simpl.
  by rewrite bind_app, bind_cons, fmap_app, fmap_cons.
Qed.

(** ** Case lemmas *)

Lemma body_unparsed s :
  py_float (get s "Latitude" (VInt 0)) = None ∨
  py_float (get s "Longitude" (VInt 0)) = None →
  body s = [] ∧ validate s = None.
Proof.
  unfold body, validate. intros [E|E].
  - by rewrite E.
  - rewrite E. by destruct (py_float (get s "Latitude" (VInt 0))).
Qed.

Lemma body_unknown s :
  centroid_of (get s "CountryName" VNone) = None → body s = [].
Proof.
  unfold body. intros ->.
  by destruct (py_float (get s "Latitude" (VInt 0))),
              (py_float (get s "Longitude" (VInt 0))).
Qed.

Lemma body_near s lat lon c_lat c_lon :
  parsed s lat lon →
  centroid_of (get s "CountryName" VNone) = Some (c_lat, c_lon) →
  far lat lon c_lat c_lon = false →
  body s = [] ∧ validate s = Some consistent.
Proof.
  unfold body, validate, classify. intros [-> ->] -> Hfar. simpl.
  by rewrite Hfar.
Qed.

Lemma body_swap s lat lon c_lat c_lon :
  parsed s lat lon →
  centroid_of (get s "CountryName" VNone) = Some (c_lat, c_lon) →
  far lat lon c_lat c_lon = true →
  PrimFloat.ltb (dist lon lat c_lat c_lon) (dist lat lon c_lat c_lon) = true →
  body s = [ Append (swap_event s lat lon);
             SetItem "Latitude" (VFloat lon);
             SetItem "Longitude" (VFloat lat);
             SetItem "Note" (VStr swap_note) ] ∧
  validate s = Some swap_correctable.
Proof.
  unfold body, validate, classify. intros [-> ->] -> Hfar Hlt. simpl.
  by rewrite Hfar, Hlt.
Qed.

Lemma body_mismatch s lat lon c_lat c_lon :
  parsed s lat lon →
  centroid_of (get s "CountryName" VNone) = Some (c_lat, c_lon) →
  far lat lon c_lat c_lon = true →
  PrimFloat.ltb (dist lon lat c_lat c_lon) (dist lat lon c_lat c_lon) = false →
  body s = [ Append (mismatch_event s lat lon c_lat c_lon);
             SetItem "Note" (VStr mismatch_note) ] ∧
  validate s = Some unresolved_mismatch.
Proof.
  unfold body, validate, classify. intros [-> ->] -> Hfar Hlt. simpl.
  by rewrite Hfar, Hlt.
Qed.

Lemma path_total s : path s.
Proof.
  destruct (py_float (get s "Latitude" (VInt 0))) as [lat|] eqn:Elat;
    [|apply path_except; by left].
  destruct (py_float (get s "Longitude" (VInt 0))) as [lon|] eqn:Elon;
    [|apply path_except; by right].
  destruct (centroid_of (get s "CountryName" VNone)) as [[c_lat c_lon]|] eqn:Ec;
    [|by eapply path_unknown].
  destruct (far lat lon c_lat c_lon) eqn:Efar; [|by eapply path_near].
  destruct (PrimFloat.ltb (dist lon lat c_lat c_lon) (dist lat lon c_lat c_lon))
    eqn:Elt; [by eapply path_swap | by eapply path_mismatch].
Qed.

Lemma validate_unknown s lat lon :
  parsed s lat lon →
  centroid_of (get s "CountryName" VNone) = None →
  validate s = Some consistent.
Proof. unfold validate. by intros [-> ->] ->. Qed.

Lemma untouched s : body s = [] → corrected s = s ∧ events s = [].
Proof. unfold corrected, events. by intros ->. Qed.

Lemma swap_effect s lat lon c_lat c_lon :
  parsed s lat lon →
  centroid_of (get s "CountryName" VNone) = Some (c_lat, c_lon) →
  far lat lon c_lat c_lon = true →
  PrimFloat.ltb (dist lon lat c_lat c_lon) (dist lat lon c_lat c_lon) = true →
  corrected s =
    <["Note" := VStr swap_note]>
      (<["Longitude" := VFloat lat]> (<["Latitude" := VFloat lon]> s)) ∧
  events s = [swap_event s lat lon].
Proof.
  intros Hp Hc Hfar Hlt. unfold corrected, events.
  by destruct (body_swap s lat lon c_lat c_lon Hp Hc Hfar Hlt) as [-> _].
Qed.

Lemma mismatch_effect s lat lon c_lat c_lon :
  parsed s lat lon →
  centroid_of (get s "CountryName" VNone) = Some (c_lat, c_lon) →
  far lat lon c_lat c_lon = true →
  PrimFloat.ltb (dist lon lat c_lat c_lon) (dist lat lon c_lat c_lon) = false →
  corrected s = <["Note" := VStr mismatch_note]> s ∧
  events s = [mismatch_event s lat lon c_lat c_lon].
Proof.
  intros Hp Hc Hfar Hlt. unfold corrected, events.
  by destruct (body_mismatch s lat lon c_lat c_lon Hp Hc Hfar Hlt) as [-> _].
Qed.

(** ** Per-record properties *)

(** C2 (swap correctness).  A record of a country with a centroid, outside
    the 10/20 degree window, whose transposed pair is strictly nearer to the
    centroid in Manhattan distance, is classified swap-correctable: its
    output latitude is the input longitude, its output longitude the input
    latitude, and exactly one event is appended, a [swap_latlon] whose [old]
    is the input pair and whose [new] is the transposed pair.  In a run of
    the loop over any list that holds the record, the output list has the
    swapped record at the place of the record, and [corrections] has that
    one event between the events of the records before it and those of the
    records after it. *)
Theorem swap_correctness s lat lon c_lat c_lon :
  parsed s lat lon →
  centroid_of (get s "CountryName" VNone) = Some (c_lat, c_lon) →
  far lat lon c_lat c_lon = true →
  PrimFloat.ltb (dist lon lat c_lat c_lon) (dist lat lon c_lat c_lon) = true →
  validate s = Some swap_correctable ∧
  corrected s !! "Latitude" = Some (VFloat lon) ∧
  corrected s !! "Longitude" = Some (VFloat lat) ∧
  ∃ c, events s = [c] ∧ action c = swap_latlon ∧
       old c = (lat, lon) ∧ new c = Some (lon, lat) ∧
       ∀ before after : list dict,
         ∃ o, o !! "Latitude" = Some (VFloat lon) ∧
              o !! "Longitude" = Some (VFloat lat) ∧
              correct_sites (before ++ s :: after) =
              {| corrections := corrections (correct_sites before) ++
                                c :: corrections (correct_sites after);
                 corrected_sites := corrected_sites (correct_sites before) ++
                                    o :: corrected_sites (correct_sites after) |}.
Proof.
  intros Hp Hc Hfar Hlt.
  destruct (swap_effect s lat lon c_lat c_lon Hp Hc Hfar Hlt) as [Ecorr Eev].
  split; [by apply (body_swap s lat lon c_lat c_lon)|].
  split; [rewrite Ecorr; by simplify_map_eq|].
  split; [rewrite Ecorr; by simplify_map_eq|].
  exists (swap_event s lat lon).
  split; [done|]. split; [done|]. split; [done|]. split; [done|].
  intros before after. exists (corrected s).
  split; [rewrite Ecorr; by simplify_map_eq|].
  split; [rewrite Ecorr; by simplify_map_eq|].
  by rewrite correct_sites_at, Eev.
Qed.

(** C3 (mismatch preservation, ties included).  A record of a country with
    a centroid, outside the window, whose transposed pair is at a distance
    greater than or equal to that of the original pair, is classified
    unresolved: its coordinate cells are the input cells, its note asks for
    manual review, and exactly one event is appended, a [mismatch] carrying
    the input pair and the centroid of the country.  In a run of the loop
    over any list that holds the record, the output list has, at the place
    of the record, a record with the same coordinate cells and that note,
    and [corrections] has that one event between the events of the records
    before it and those of the records after it. *)
Theorem mismatch_preservation s lat lon c_lat c_lon :
  parsed s lat lon →
  centroid_of (get s "CountryName" VNone) = Some (c_lat, c_lon) →
  far lat lon c_lat c_lon = true →
  PrimFloat.leb (dist lat lon c_lat c_lon) (dist lon lat c_lat c_lon) = true →
  validate s = Some unresolved_mismatch ∧
  corrected s !! "Latitude" = s !! "Latitude" ∧
  corrected s !! "Longitude" = s !! "Longitude" ∧
  corrected s !! "Note" = Some (VStr mismatch_note) ∧
  ∃ c, events s = [c] ∧ action c = mismatch ∧
       old c = (lat, lon) ∧ country_centroid c = Some (c_lat, c_lon) ∧
       ∀ before after : list dict,
         ∃ o, o !! "Latitude" = s !! "Latitude" ∧
              o !! "Longitude" = s !! "Longitude" ∧
              o !! "Note" = Some (VStr mismatch_note) ∧
              correct_sites (before ++ s :: after) =
              {| corrections := corrections (correct_sites before) ++
                                c :: corrections (correct_sites after);
                 corrected_sites := corrected_sites (correct_sites before) ++
                                    o :: corrected_sites (correct_sites after) |}.
Proof.
  intros Hp Hc Hfar Hle. apply F64Facts.leb_not_gt in Hle.
  destruct (mismatch_effect s lat lon c_lat c_lon Hp Hc Hfar Hle) as [Ecorr Eev].
  split; [by apply (body_mismatch s lat lon c_lat c_lon)|].
  split; [rewrite Ecorr; by simplify_map_eq|].
  split; [rewrite Ecorr; by simplify_map_eq|].
  split; [rewrite Ecorr; by simplify_map_eq|].
  exists (mismatch_event s lat lon c_lat c_lon).
  split; [done|]. split; [done|]. split; [done|]. split; [done|].
  intros before after. exists (corrected s).
  split; [rewrite Ecorr; by simplify_map_eq|].
  split; [rewrite Ecorr; by simplify_map_eq|].
  split; [rewrite Ecorr; by simplify_map_eq|].
  by rewrite correct_sites_at, Eev.
Qed.

(** C4, as amended.  A record one of whose coordinates does not convert
    with [float()] leaves the iteration through the [except]: it gets no
    verdict, goes to the output as it came and appends no event; the run
    goes on, with the record at its place in the output and the log made of
    the events of the other records. *)
Theorem unconvertible_passes_through s :
  py_float (get s "Latitude" (VInt 0)) = None ∨
  py_float (get s "Longitude" (VInt 0)) = None →
  validate s = None ∧ corrected s = s ∧ events s = [] ∧
  ∀ before after : list dict,
    correct_sites (before ++ s :: after) =
    {| corrections := corrections (correct_sites before) ++
                      corrections (correct_sites after);
       corrected_sites := corrected_sites (correct_sites before) ++
                          s :: corrected_sites (correct_sites after) |}.
Proof.
  intros Hbad. destruct (body_unparsed s Hbad) as [Hb Hv].
  destruct (untouched s Hb) as [Es Ee].
  split; [done|]. split; [done|]. split; [done|].
  intros before after. by apply correct_sites_silent.
Qed.

(** C5 (unknown country).  A record whose country name is not a key of the
    centroid table goes to the output with every field as it came, and
    appends no event. *)
Theorem unknown_country_untouched s :
  centroid_of (get s "CountryName" VNone) = None →
  corrected s = s ∧ events s = [].
Proof. intros Hc. by apply untouched, body_unknown. Qed.

(** C6 (the window is a no-op).  A record of a country with a centroid whose
    parsed coordinates are within 10 degrees of latitude and 20 degrees of
    longitude of it is classified consistent, goes to the output with every
    field as it came, and appends no event. *)
Theorem window_is_noop s lat lon c_lat c_lon :
  parsed s lat lon →
  centroid_of (get s "CountryName" VNone) = Some (c_lat, c_lon) →
  PrimFloat.leb (PrimFloat.abs (lat - c_lat)) 10 = true →
  PrimFloat.leb (PrimFloat.abs (lon - c_lon)) 20 = true →
  validate s = Some consistent ∧ corrected s = s ∧ events s = [].
Proof.
  intros Hp Hc Hlat Hlon.
  assert (far lat lon c_lat c_lon = false) as Hfar.
  { unfold far.
    by rewrite (F64Facts.leb_not_gt _ _ Hlat), (F64Facts.leb_not_gt _ _ Hlon). }
  destruct (body_near s lat lon c_lat c_lon Hp Hc Hfar) as [Hb Hv].
  split; [done|]. by apply untouched.
Qed.

(** The output record is the input record with at most three cells
    written. *)
Lemma corrected_shape s :
  corrected s = s ∨
  (∃ lat lon, corrected s =
     <["Note" := VStr swap_note]>
       (<["Longitude" := VFloat lat]> (<["Latitude" := VFloat lon]> s))) ∨
  corrected s = <["Note" := VStr mismatch_note]> s.
Proof.
  destruct (path_total s) as
    [Hbad|lat lon Hp Hc|lat lon c_lat c_lon Hp Hc Hfar
    |lat lon c_lat c_lon Hp Hc Hfar Hlt|lat lon c_lat c_lon Hp Hc Hfar Hlt].
  - left. by apply untouched, body_unparsed.
  - left. by apply untouched, body_unknown.
  - left. by apply untouched, (body_near s lat lon c_lat c_lon).
  - right; left. exists lat, lon.
    by apply (swap_effect s lat lon c_lat c_lon).
  - right; right. by apply (mismatch_effect s lat lon c_lat c_lon).
Qed.

(** C8 (frame).  Whatever the record, the pass writes at most its
    ['Latitude'], ['Longitude'] and ['Note'] cells: under every other key the
    output record holds what the input record held. *)
Theorem frame_condition s (k : string) :
  k ≠ "Latitude" → k ≠ "Longitude" → k ≠ "Note" →
  corrected s !! k = s !! k.
Proof.
  intros Hlat Hlon Hnote.
  destruct (corrected_shape s) as [->|[(lat & lon & ->)| ->]].
  - done.
  - rewrite lookup_insert_ne by done. rewrite lookup_insert_ne by done.
    by rewrite lookup_insert_ne.
  - by rewrite lookup_insert_ne.
Qed.

(** C9, as amended.  The pass sets the note of the records it flags and of
    no other: a swapped record carries the swap note, an unresolved one the
    manual-review note, and a record that is consistent or left through the
    [except] is the input record itself, so its note is the one it came
    with, none when it came with none. *)
Theorem note_of_output s :
  match validate s with
  | Some swap_correctable => corrected s !! "Note" = Some (VStr swap_note)
  | Some unresolved_mismatch =>
      corrected s !! "Note" = Some (VStr mismatch_note)
  | Some consistent | None => corrected s = s
  end.
Proof.
  destruct (path_total s) as
    [Hbad|lat lon Hp Hc|lat lon c_lat c_lon Hp Hc Hfar
    |lat lon c_lat c_lon Hp Hc Hfar Hlt|lat lon c_lat c_lon Hp Hc Hfar Hlt].
  - destruct (body_unparsed s Hbad) as [Hb ->]. by apply untouched.
  - rewrite (validate_unknown s lat lon Hp Hc). by apply untouched, body_unknown.
  - destruct (body_near s lat lon c_lat c_lon Hp Hc Hfar) as [Hb ->].
    by apply untouched.
  - destruct (body_swap s lat lon c_lat c_lon Hp Hc Hfar Hlt) as [_ ->].
    destruct (swap_effect s lat lon c_lat c_lon Hp Hc Hfar Hlt) as [-> _].
    by simplify_map_eq.
  - destruct (body_mismatch s lat lon c_lat c_lon Hp Hc Hfar Hlt) as [_ ->].
    destruct (mismatch_effect s lat lon c_lat c_lon Hp Hc Hfar Hlt) as [-> _].
    by simplify_map_eq.
Qed.

(** ** A second pass *)

(** What the loop reads back from a record it has swapped. *)
Lemma swapped_record s lat lon :
  let s' := <["Note" := VStr swap_note]>
              (<["Longitude" := VFloat lat]> (<["Latitude" := VFloat lon]> s)) in
  parsed s' lon lat ∧
  get s' "CountryName" VNone = get s "CountryName" VNone.
Proof. unfold parsed, get. by simplify_map_eq. Qed.

(** C1, as amended.  A record swapped by a first pass is never swapped
    back by a second one: the coordinates the second pass reads are the
    transposed pair, and it leaves both cells as they are.  When the
    transposed pair is inside the window the record is consistent, unchanged
    and silent; when it is still outside, the record is unresolved, its note
    is replaced and one [mismatch] event is appended. *)
Theorem second_pass_after_swap s lat lon c_lat c_lon :
  parsed s lat lon →
  centroid_of (get s "CountryName" VNone) = Some (c_lat, c_lon) →
  far lat lon c_lat c_lon = true →
  PrimFloat.ltb (dist lon lat c_lat c_lon) (dist lat lon c_lat c_lon) = true →
  let s' := corrected s in
  parsed s' lon lat ∧
  corrected s' !! "Latitude" = s' !! "Latitude" ∧
  corrected s' !! "Longitude" = s' !! "Longitude" ∧
  (far lon lat c_lat c_lon = false →
     validate s' = Some consistent ∧ corrected s' = s' ∧ events s' = []) ∧
  (far lon lat c_lat c_lon = true →
     validate s' = Some unresolved_mismatch ∧
     corrected s' !! "Note" = Some (VStr mismatch_note) ∧
     ∃ c, events s' = [c] ∧ action c = mismatch ∧ old c = (lon, lat)).
Proof.
  intros Hp Hc Hfar Hlt s'.
  assert (s' = <["Note" := VStr swap_note]>
                 (<["Longitude" := VFloat lat]> (<["Latitude" := VFloat lon]> s)))
    as Es' by apply (swap_effect s lat lon c_lat c_lon Hp Hc Hfar Hlt).
  destruct (swapped_record s lat lon) as [Hp' Hn']. rewrite <- Es' in Hp', Hn'.
  assert (centroid_of (get s' "CountryName" VNone) = Some (c_lat, c_lon)) as Hc'
    by (by rewrite Hn').
  pose proof (F64Facts.ltb_asym _ _ Hlt) as Hlt'.
  split; [done|].
  destruct (far lon lat c_lat c_lon) eqn:Hfar'.
  - destruct (mismatch_effect s' lon lat c_lat c_lon Hp' Hc' Hfar' Hlt')
      as [Ecorr Eev].
    split; [rewrite Ecorr; by simplify_map_eq|].
    split; [rewrite Ecorr; by simplify_map_eq|].
    split; [done|]. intros _.
    split; [by apply (body_mismatch s' lon lat c_lat c_lon)|].
    split; [rewrite Ecorr; by simplify_map_eq|].
    by exists (mismatch_event s' lon lat c_lat c_lon).
  - destruct (body_near s' lon lat c_lat c_lon Hp' Hc' Hfar') as [Hb Hv].
    destruct (untouched s' Hb) as [Ecorr Eev].
    split; [by rewrite Ecorr|]. split; [by rewrite Ecorr|].
    split; [done|]. intros [=].
Qed.

(** ** The log *)

(** C10 (audit before mutation).  An event of the log of a record carries as
    [old] the pair parsed from the record as it entered the iteration; a
    [swap_latlon] event has the transposed pair as [new]; its append is the
    first statement the iteration runs, and only item assignments follow, so
    the record is still intact when the event is written; and in the log of
    a whole run the event stands after those of the records before its own
    and before those of the records after it. *)
Theorem audit_before_mutation s c :
  c ∈ events s →
  ∃ lat lon,
    parsed s lat lon ∧
    old c = (lat, lon) ∧
    (action c = swap_latlon → new c = Some (lon, lat)) ∧
    (∃ q, body s = Append c :: q ∧ Forall (λ i, ∃ k v, i = SetItem k v) q) ∧
    ∀ before after : list dict,
      corrections (correct_sites (before ++ s :: after)) =
      corrections (correct_sites before) ++
        c :: corrections (correct_sites after).
Proof.
  intros Hin.
  assert (∀ before after : list dict, events s = [c] →
            corrections (correct_sites (before ++ s :: after)) =
            corrections (correct_sites before) ++
              c :: corrections (correct_sites after)) as Horder.
  { intros before after Eev.
    rewrite !correct_sites_unfold. simpl.
    by rewrite bind_app, bind_cons, Eev. }
  destruct (path_total s) as
    [Hbad|lat lon Hp Hc|lat lon c_lat c_lon Hp Hc Hfar
    |lat lon c_lat c_lon Hp Hc Hfar Hlt|lat lon c_lat c_lon Hp Hc Hfar Hlt].
  - destruct (untouched s (proj1 (body_unparsed s Hbad))) as [_ E].
    rewrite E in Hin. by apply elem_of_nil in Hin.
  - destruct (untouched s (body_unknown s Hc)) as [_ E].
    rewrite E in Hin. by apply elem_of_nil in Hin.
  - destruct (body_near s lat lon c_lat c_lon Hp Hc Hfar) as [Hb _].
    destruct (untouched s Hb) as [_ E].
    rewrite E in Hin. by apply elem_of_nil in Hin.
  - destruct (swap_effect s lat lon c_lat c_lon Hp Hc Hfar Hlt) as [_ E].
    destruct (body_swap s lat lon c_lat c_lon Hp Hc Hfar Hlt) as [Hb _].
    rewrite E in Hin. apply list_elem_of_singleton in Hin as ->.
    exists lat, lon. split; [done|]. split; [done|]. split; [done|]. split.
    + eexists. split; [exact Hb|]. repeat constructor; eauto.
    + intros before after. by apply Horder.
  - destruct (mismatch_effect s lat lon c_lat c_lon Hp Hc Hfar Hlt) as [_ E].
    destruct (body_mismatch s lat lon c_lat c_lon Hp Hc Hfar Hlt) as [Hb _].
    rewrite E in Hin. apply list_elem_of_singleton in Hin as ->.
    exists lat, lon. split; [done|]. split; [done|]. split; [done|]. split.
    + eexists. split; [exact Hb|]. repeat constructor; eauto.
    + intros before after. by apply Horder.
Qed.

(** ** The join *)







End Properties.

(** * Properties of the web application *)

Section AppProperties.
Context `{!StrToFloat} `{!App.StrToInt} `{!App.PyText} `{!App.MarkerCheck}.

Implicit Types (session : dict) (req : App.request) (st : App.store).
Implicit Types (P : gmap string (list string)) (roles_df : list App.role_row).

(** ** Theme *)

(** X1 (theme round trip).  [set_theme] answers 204 or 400, or raises.  It
    raises exactly when the form names no theme and the request is sent as
    JSON with a body that does not decode or is no object.  On 400 and when
    it raises the session is as it was.  On 204 the theme [inject_theme]
    then hands to the templates is the requested one when it is ['light'] or
    ['dark'], and none when the request asked for ['system'] or for
    nothing. *)
Theorem set_theme_inject session req :
  let out := App.set_theme session req in
  (out.2 = App.Page ("", 204) ∨ out.2 = App.Page ("Invalid theme", 400) ∨
   out.2 = App.Raise) ∧
  (out.2 = App.Raise ↔
     (App.form req !! "theme" = None ∨ App.form req !! "theme" = Some "") ∧
     ∃ body, App.json req = Some body ∧ ∀ members, body ≠ Some (App.JObject members)) ∧
  (out.2 ≠ App.Page ("", 204) → out.1 = session) ∧
  (out.2 = App.Page ("", 204) →
     (∀ t, t = "light" ∨ t = "dark" →
        App.requested_theme req = Some (App.JString t) →
        App.inject_theme out.1 = VStr t) ∧
     (App.requested_theme req = Some (App.JString "system") ∨
      App.requested_theme req = Some App.JNull →
      App.inject_theme out.1 = VNone)).
Proof.
  assert (App.requested_theme req = None ↔
            (App.form req !! "theme" = None ∨ App.form req !! "theme" = Some "") ∧
            ∃ body, App.json req = Some body ∧
                    ∀ members, body ≠ Some (App.JObject members)) as Hraise.
  { unfold App.requested_theme.
    destruct (App.form req !! "theme") as [[|a t]|] eqn:Ef.
    - destruct (App.json req) as [[[]|]|]; split;
        first [ done
              | by intros [_ (body & [= <-] & Hb)]; destruct (Hb members)
              | by intros [_ (body & [=] & _)]
              | intros _; split; [by right|]; eexists; split; [done|]; done ].
    - split; [done|]. by intros [[?|?] _].
    - destruct (App.json req) as [[[]|]|]; split;
        first [ done
              | by intros [_ (body & [= <-] & Hb)]; destruct (Hb members)
              | by intros [_ (body & [=] & _)]
              | intros _; split; [by left|]; eexists; split; [done|]; done ]. }
  unfold App.set_theme, App.inject_theme, get. simpl.
  destruct (App.requested_theme req) as [theme|] eqn:Et; simpl.
  - destruct theme as [|b|n|f|t|l|members]; simpl;
      try (split; [by right; left|]; split;
             [split; [done|by intros HX%Hraise]|]; by split).
    + split; [by left|]. split; [split; [done|by intros HX%Hraise]|].
      split; [done|]. intros _. split; [by intros t _ [=]|].
      intros _. by rewrite lookup_delete_eq.
    + case_bool_decide as Hin;
        [|split; [by right; left|]; split;
            [split; [done|by intros HX%Hraise]|]; by split].
      case_bool_decide as Hsys; simpl.
      * split; [by left|]. split; [split; [done|by intros HX%Hraise]|].
        split; [done|]. intros _. subst t.
        split; [by intros t [->| ->] [=]|].
        intros _; by rewrite lookup_delete_eq.
      * split; [by left|]. split; [split; [done|by intros HX%Hraise]|].
        split; [done|]. intros _.
        split; [intros t' _ [= <-]; by rewrite lookup_insert_eq|].
        by intros [[= ->]|[=]].
  - split; [by right; right|]. split; [split; [by intros _; apply Hraise|done]|].
    by split.
Qed.

(** X2 (what [set_theme] keeps).  A session that holds no theme, ['light']
    or ['dark'] still does after any request: ['system'] and invalid values
    are never stored.  No other entry of the session is touched. *)
Theorem set_theme_keeps session req :
  (App.theme_stored session → App.theme_stored (App.set_theme session req).1) ∧
  ∀ k : string, k ≠ "theme" → (App.set_theme session req).1 !! k = session !! k.
Proof.
  unfold App.set_theme, App.theme_stored.
  destruct (App.requested_theme req) as [[|b|n|f|t|l|members]|]; simpl;
    try done.
  - split; [intros _; left; apply lookup_delete_eq|].
    intros k Hk. by rewrite lookup_delete_ne.
  - case_bool_decide as Hin; [|done].
    case_bool_decide as Hsys; simpl.
    + split; [intros _; left; apply lookup_delete_eq|].
      intros k Hk. by rewrite lookup_delete_ne.
    + split; [|intros k Hk; by rewrite lookup_insert_ne].
      intros _. rewrite lookup_insert_eq.
      repeat (apply elem_of_cons in Hin as [->|Hin]; [by auto|]).
      by apply elem_of_nil in Hin.
Qed.

(** ** Permissions *)

(** The table of a frame read with its columns: a role has an entry exactly
    when its name is in the frame. *)
Lemma PERMISSIONS_names roles_df (r : string) :
  App.PERMISSIONS roles_df !! r =
  if bool_decide (r ∈ App.RoleName <$> roles_df)
  then Some (App.role_permissions r) else None.
Proof.
  unfold App.PERMISSIONS.
  induction roles_df as [|row roles_df IH] using rev_ind.
  - simpl. by rewrite lookup_empty.
  - rewrite foldl_app, fmap_app. simpl.
    destruct (decide (App.RoleName row = r)) as [<-|Hne].
    + rewrite lookup_insert_eq. rewrite bool_decide_eq_true_2; [done|].
      apply elem_of_app. right. by left.
    + rewrite lookup_insert_ne by done. rewrite IH.
      erewrite bool_decide_ext; [done|].
      rewrite elem_of_app, list_elem_of_singleton.
      split; [by left|]. intros [?|Hr]; [done|]. by destruct Hne.
Qed.

Lemma PERMISSIONS_snoc roles_df (row : App.role_row) :
  App.PERMISSIONS (roles_df ++ [row]) =
  <[App.RoleName row := App.role_permissions (App.RoleName row)]>
    (App.PERMISSIONS roles_df).
Proof. unfold App.PERMISSIONS. by rewrite foldl_app. Qed.

(** The loop on any records: it ends without exception exactly when every
    record has the two columns, and its table is then the table of the
    records whose name is text. *)
Lemma load_roles_fold (rows : list dict) :
  match foldl (λ (P : option (gmap string (list string))) row,
                 P ≫= λ P, App.set_role P row) (Some ∅) rows with
  | Some T =>
    Forall (λ row, is_Some (row !! "RoleName") ∧ is_Some (row !! "Permissions"))
           rows ∧
    ∃ roles_df, T = App.PERMISSIONS roles_df ∧
      ∀ r : string, r ∈ App.RoleName <$> roles_df ↔
                    ∃ row, row ∈ rows ∧ row !! "RoleName" = Some (VStr r)
  | None =>
    ¬ Forall (λ row, is_Some (row !! "RoleName") ∧ is_Some (row !! "Permissions"))
             rows
  end.
Proof.
  induction rows as [|row rows IH] using rev_ind.
  - simpl. split; [constructor|]. exists []. split; [done|].
    intros r. split.
    + intros Hin. by apply elem_of_nil in Hin.
    + intros (row & Hin & _). by apply elem_of_nil in Hin.
  - rewrite foldl_app. simpl.
    destruct (foldl _ _ rows) as [T|]; simpl.
    + destruct IH as [Hall (roles_df & -> & Hnames)].
      unfold App.set_role.
      destruct (row !! "RoleName") as [name|] eqn:En; simpl;
        [|intros [_ Hrow]%Forall_app; apply Forall_inv in Hrow;
          cbv beta in Hrow; rewrite En in Hrow; by destruct Hrow as [[? ?] _]].
      destruct (row !! "Permissions") as [perms|] eqn:Ep; simpl;
        [|intros [_ Hrow]%Forall_app; apply Forall_inv in Hrow;
          cbv beta in Hrow; rewrite Ep in Hrow; by destruct Hrow as [_ [? ?]]].
      split.
      { apply Forall_app. split; [done|]. apply Forall_singleton.
        rewrite En, Ep. by split; eexists. }
      assert (∀ r : string,
                (∃ row', row' ∈ rows ++ [row] ∧ row' !! "RoleName" = Some (VStr r)) ↔
                (∃ row', row' ∈ rows ∧ row' !! "RoleName" = Some (VStr r)) ∨
                name = VStr r) as Hsplit.
      { intros r. split.
        - intros (row' & [Hin|Hin]%elem_of_app & Hr); [left; by exists row'|].
          apply list_elem_of_singleton in Hin as ->. right. congruence.
        - intros [(row' & Hin & Hr)| ->].
          + exists row'. split; [|done]. apply elem_of_app. by left.
          + exists row. split; [|done]. apply elem_of_app. right. by left. }
      destruct name as [|n|f|n].
      * exists roles_df. split; [done|]. intros r.
        rewrite Hsplit, Hnames. split; [by left|]. by intros [?|?].
      * exists roles_df. split; [done|]. intros r.
        rewrite Hsplit, Hnames. split; [by left|]. by intros [?|?].
      * exists roles_df. split; [done|]. intros r.
        rewrite Hsplit, Hnames. split; [by left|]. by intros [?|?].
      * exists (roles_df ++ [{| App.RoleID := 0; App.RoleName := n;
                                App.Permissions := "" |}]).
        split; [by rewrite PERMISSIONS_snoc|]. intros r.
        rewrite Hsplit, <- Hnames, fmap_app, elem_of_app. simpl.
        rewrite list_elem_of_singleton.
        split; (intros [?|?]; [by left|right; congruence]).
    + intros [Hall _]%Forall_app. by apply IH.
Qed.

Lemma load_roles_record (row : App.role_row) P :
  App.set_role P (App.role_record row) =
  Some (<[App.RoleName row := App.role_permissions (App.RoleName row)]> P).
Proof. unfold App.set_role, App.role_record. by simplify_map_eq. Qed.

(** X3 (the permission table).  Whatever [roles.csv] holds, a role has an
    entry in the table the block leaves exactly when the file was read,
    every record has the ['RoleName'] and ['Permissions'] columns, and the
    name of the role is in the file; the entry is the list the code gives to
    the name, so that the content of the ['Permissions'] column has no
    effect, nor has a name listed twice.  A file that cannot be read or
    lacks one of the two columns leaves every role without permissions.  On
    a frame read with its columns the table is the table of the loop, and
    the table left is in every case the table of the loop on some frame. *)
Theorem load_roles_table (roles_csv : option (list dict)) :
  (∀ (r : string) (perms : list string),
     App.load_roles roles_csv !! r = Some perms ↔
     perms = App.role_permissions r ∧
     ∃ rows, roles_csv = Some rows ∧
       Forall (λ row, is_Some (row !! "RoleName") ∧ is_Some (row !! "Permissions"))
              rows ∧
       ∃ row, row ∈ rows ∧ row !! "RoleName" = Some (VStr r)) ∧
  (∀ roles_df,
     App.load_roles (Some (App.role_record <$> roles_df)) = App.PERMISSIONS roles_df) ∧
  ∃ roles_df, App.load_roles roles_csv = App.PERMISSIONS roles_df.
Proof.
  split; [|split].
  - intros r perms. unfold App.load_roles.
    destruct roles_csv as [rows|].
    + pose proof (load_roles_fold rows) as Hfold.
      destruct (foldl _ _ rows) as [T|]; simpl.
      * destruct Hfold as [Hall (roles_df & -> & Hnames)].
        rewrite PERMISSIONS_names. case_bool_decide as Hin.
        -- split.
           ++ intros [= <-]. split; [done|]. exists rows.
              split; [done|]. split; [done|]. by apply Hnames.
           ++ by intros [-> _].
        -- split; [done|]. intros [_ (rows' & [= <-] & _ & Hrow)].
           destruct Hin. by apply Hnames.
      * rewrite lookup_empty. split; [done|].
        intros [_ (rows' & [= <-] & Hall & _)]. done.
    + rewrite lookup_empty. split; [done|]. by intros [_ (rows & [=] & _)].
  - intros roles_df. unfold App.load_roles.
    induction roles_df as [|row roles_df IH] using rev_ind; [done|].
    rewrite fmap_app, foldl_app, PERMISSIONS_snoc. simpl.
    destruct (foldl _ _ (App.role_record <$> roles_df)) as [T|] eqn:Ef; simpl.
    + simpl in IH. subst T. by rewrite load_roles_record.
    + exfalso. pose proof (load_roles_fold (App.role_record <$> roles_df)) as Hf.
      rewrite Ef in Hf. apply Hf. apply Forall_fmap, Forall_true.
      intros x. unfold App.role_record. simpl. split; eexists; by simplify_map_eq.
  - unfold App.load_roles. destruct roles_csv as [rows|]; [|by exists []].
    pose proof (load_roles_fold rows) as Hfold.
    destruct (foldl _ _ rows) as [T|]; simpl; [|by exists []].
    destruct Hfold as [_ (roles_df & -> & _)]. by exists roles_df.
Qed.

Lemma granted_PERMISSIONS roles_df (r : string) :
  App.granted (App.PERMISSIONS roles_df) (VStr r) =
  if bool_decide (r ∈ App.RoleName <$> roles_df)
  then App.role_permissions r else [].
Proof.
  unfold App.granted.
  destruct (decide (r ∈ App.RoleName <$> roles_df)) as [Hin|Hout].
  - rewrite bool_decide_eq_true_2 by done.
    assert (App.PERMISSIONS roles_df !! r = Some (App.role_permissions r)) as ->;
      [|done].
    clear -Hin. unfold App.PERMISSIONS.
    induction roles_df as [|row roles_df IH] using rev_ind.
    { by apply elem_of_nil in Hin. }
    rewrite foldl_app. simpl.
    destruct (decide (App.RoleName row = r)) as [<-|Hne].
    { by rewrite lookup_insert_eq. }
    rewrite lookup_insert_ne by done. apply IH.
    rewrite fmap_app in Hin. apply elem_of_app in Hin as [Hin|Hin]; [done|].
    apply list_elem_of_singleton in Hin. by destruct Hne.
  - rewrite bool_decide_eq_false_2 by done.
    assert (App.PERMISSIONS roles_df !! r = None) as ->; [|done].
    clear -Hout. unfold App.PERMISSIONS.
    induction roles_df as [|row roles_df IH] using rev_ind; [done|].
    rewrite foldl_app. simpl. rewrite fmap_app in Hout.
    rewrite lookup_insert_ne.
    + apply IH. intros Hin. apply Hout, elem_of_app. by left.
    + intros <-. apply Hout, elem_of_app. right. by left.
Qed.

(** The permissions of a role name, one test at a time. *)
Lemma role_permissions_cases (r : string) :
  (r = "Administrator" ∧ App.role_permissions r = ["all"]) ∨
  (r = "Investor" ∧
   App.role_permissions r = ["profiles"; "charts"; "production"]) ∨
  (r = "Researcher" ∧
   App.role_permissions r =
     ["database"; "export"; "insights"; "profiles"; "map"]) ∨
  (r ≠ "Administrator" ∧ r ≠ "Investor" ∧ r ≠ "Researcher" ∧
   App.role_permissions r = []).
Proof.
  unfold App.role_permissions.
  repeat case_bool_decide; subst; auto 10.
Qed.

(** ** Dashboard *)

(** X4 (the dashboard and the doors).  For any permission table, a feature
    among ['database'], ['profiles'], ['charts'] and ['map'] is listed on
    the dashboard of a session exactly when the test that opens the view of
    that feature lets the session in. *)
Theorem dashboard_lists_open_views P session st (page : App.dashboard_page)
    (feature : string) :
  App.dashboard P session st = App.Page page →
  feature ∈ ["database"; "profiles"; "charts"; "map"] →
  feature ∈ App.features page ↔
  App.guard (A := unit) session
    (λ role, negb (App.may P role feature) && negb (App.may P role "all")) = None.
Proof.
  unfold App.dashboard, App.guard. intros Hpage Hf.
  destruct (session !! "user"); [|done].
  destruct (session !! "role") as [role|]; [|done].
  injection Hpage as <-. simpl.
  assert (∀ b : bool, (if negb b then Some (App.Redirect (A:=unit) "dashboard")
                       else None) = None ↔ b = true) as Hb
    by (by intros []).
  rewrite <- negb_orb, Hb, orb_comm.
  repeat (apply elem_of_cons in Hf as [->|Hf]);
    [| | | |by apply elem_of_nil in Hf];
    destruct (App.may P role "all"), (App.may P role "database"),
             (App.may P role "profiles"), (App.may P role "charts"),
             (App.may P role "map"); simpl;
    split; intros Hin;
    first [ done
          | by repeat constructor
          | exfalso; repeat (apply elem_of_cons in Hin as [[=]|Hin]);
            by apply elem_of_nil in Hin ].
Qed.

(** X5 (what each role sees).  With the table built from any roles file,
    the dashboard of a session whose role is a name of the file lists all
    four features for ['Administrator'], profiles and charts for
    ['Investor'], database, profiles and map for ['Researcher'], and nothing
    for any other name; a role that is not in the file sees nothing.  Only
    ['Administrator'] is flagged as administrator. *)
Theorem dashboard_by_role roles_df session st (page : App.dashboard_page)
    (r : string) :
  App.dashboard (App.PERMISSIONS roles_df) session st = App.Page page →
  session !! "role" = Some (VStr r) →
  App.features page =
    (if bool_decide (r ∈ App.RoleName <$> roles_df) then
       if bool_decide (r = "Administrator")
       then ["database"; "profiles"; "charts"; "map"]
       else if bool_decide (r = "Investor") then ["profiles"; "charts"]
       else if bool_decide (r = "Researcher")
       then ["database"; "profiles"; "map"]
       else []
     else []) ∧
  App.is_admin page =
    bool_decide (r ∈ App.RoleName <$> roles_df) && bool_decide (r = "Administrator").
Proof.
  unfold App.dashboard. intros Hpage Hrole. rewrite Hrole in Hpage.
  destruct (session !! "user"); [|done]. injection Hpage as <-. simpl.
  unfold App.may. rewrite granted_PERMISSIONS.
  destruct (decide (r ∈ App.RoleName <$> roles_df)) as [Hin|Hout];
    [rewrite !(bool_decide_eq_true_2 _ Hin)
    |by rewrite !(bool_decide_eq_false_2 _ Hout)].
  destruct (role_permissions_cases r)
    as [[-> ->]|[[-> ->]|[[-> ->]|(Ha & Hi & Hr & ->)]]];
    [by vm_compute..|].
  rewrite (bool_decide_eq_false_2 (r = "Administrator")) by done.
  rewrite (bool_decide_eq_false_2 (r = "Investor")) by done.
  by rewrite (bool_decide_eq_false_2 (r = "Researcher")) by done.
Qed.

(** ** Insights *)

(** What a database view may do to the stores: nothing, or append one
    insight, and that only for a posted non-empty text, past the door, with
    the role test passed. *)
Lemma database_view_effect (feature field kind : string)
    (table : App.store → gmap string dict) P session req st :
  let out := App.database_view feature field kind table P session req st in
  out.1 = st ∨
  ∃ (text : string) (role : pyval),
    out.1 = App.set_insights st
              (App.insights st ++
                 [{| App.user := get session "user" (VStr "unknown");
                     App.insight := text; App.type := kind |}]) ∧
    App.method req = "POST" ∧
    App.form req !! "insight" = Some text ∧ text ≠ "" ∧
    session !! "role" = Some role ∧
    (App.may P role feature || App.may P role "all") = true ∧
    (App.eq_text role (Some "Researcher") || App.may P role "insights") = true.
Proof.
  unfold App.database_view, App.guard. simpl.
  destruct (session !! "user"); [|simpl; by left].
  destruct (session !! "role") as [role|] eqn:Erole; [|simpl; by left].
  destruct (App.may P role feature || App.may P role "all") eqn:Eopen.
  2:{ rewrite <- negb_orb, Eopen. simpl. by left. }
  rewrite <- negb_orb, Eopen. simpl.
  destruct (App.search _ _ _); [|simpl; by left].
  case_bool_decide as Hpost; [|simpl; by left]. simpl.
  destruct (App.form req !! "insight") as [text|] eqn:Etext; [|simpl; by left].
  rewrite bool_decide_eq_true_2 by done.
  assert (get session "role" (VStr "") = role) as ->
    by (unfold get; by rewrite Erole).
  destruct (App.eq_text role (Some "Researcher") || App.may P role "insights")
    eqn:Erole'; [|simpl; by left].
  destruct text as [|a t]; [simpl; by left|].
  right. by exists (String a t), role.
Qed.

(** X6 (who adds insights).  With the table built from any roles file, a
    request to [mineral_database] or to [country_profiles] that changes the
    stores comes from a session whose role is ['Researcher'], listed in the
    file: an ['Administrator'] enters both views and is refused the
    insight. *)
Theorem only_researcher_adds_insight roles_df session req st :
  (App.mineral_database (App.PERMISSIONS roles_df) session req st).1 ≠ st ∨
  (App.country_profiles (App.PERMISSIONS roles_df) session req st).1 ≠ st →
  session !! "role" = Some (VStr "Researcher") ∧
  "Researcher" ∈ App.RoleName <$> roles_df.
Proof.
  assert (∀ feature field kind table,
            (App.database_view feature field kind table
               (App.PERMISSIONS roles_df) session req st).1 ≠ st →
            session !! "role" = Some (VStr "Researcher") ∧
            "Researcher" ∈ App.RoleName <$> roles_df) as Hview.
  { intros feature field kind table Hne.
    destruct (database_view_effect feature field kind table
                (App.PERMISSIONS roles_df) session req st)
      as [E|(text & role & _ & _ & _ & _ & Erole & Hopen & Hres)]; [done|].
    assert (role = VStr "Researcher") as ->.
    { destruct role as [|n|f|r]; try done.
      unfold App.may in Hres. rewrite granted_PERMISSIONS in Hres.
      simpl in Hres. case_bool_decide as Hr; [by subst|]. simpl in Hres.
      destruct (decide (r ∈ App.RoleName <$> roles_df)) as [Hin|Hout].
      - rewrite (bool_decide_eq_true_2 _ Hin) in Hres.
        destruct (role_permissions_cases r)
          as [[-> E]|[[-> E]|[[-> E]|(_ & _ & _ & E)]]];
          rewrite E in Hres; by vm_compute in Hres.
      - rewrite (bool_decide_eq_false_2 _ Hout) in Hres.
        by vm_compute in Hres. }
    split; [done|].
    unfold App.may in Hopen. rewrite granted_PERMISSIONS in Hopen.
    destruct (decide ("Researcher" ∈ App.RoleName <$> roles_df)) as [Hin|Hout];
      [done|].
    rewrite (bool_decide_eq_false_2 _ Hout) in Hopen. by vm_compute in Hopen. }
  intros [Hne|Hne]; by eapply Hview.
Qed.

(** X7 (insights are appended, nothing else moves).  A request to
    [mineral_database] leaves the minerals, the countries and the sites as
    they are, keeps every insight in place and adds at most one, of type
    ['mineral']: the insights [country_profiles] shows are the same before
    and after.  Likewise with the two views exchanged. *)
Theorem insights_append_only P session req st :
  let after_m := (App.mineral_database P session req st).1 in
  let after_c := (App.country_profiles P session req st).1 in
  (App.minerals after_m = App.minerals st ∧
   App.countries after_m = App.countries st ∧
   App.sites after_m = App.sites st ∧
   (∃ l, App.insights after_m = App.insights st ++ l ∧ (length l ≤ 1)%nat) ∧
   filter (λ i, App.type i = "country") (App.insights after_m) =
   filter (λ i, App.type i = "country") (App.insights st)) ∧
  (App.minerals after_c = App.minerals st ∧
   App.countries after_c = App.countries st ∧
   App.sites after_c = App.sites st ∧
   (∃ l, App.insights after_c = App.insights st ++ l ∧ (length l ≤ 1)%nat) ∧
   filter (λ i, App.type i = "mineral") (App.insights after_c) =
   filter (λ i, App.type i = "mineral") (App.insights st)).
Proof.
  intros after_m after_c. split.
  - destruct (database_view_effect "database" "Description" "mineral"
                App.minerals P session req st)
      as [E|(text & role & E & _)];
      unfold after_m, App.mineral_database; rewrite E; simpl.
    + repeat split; try done.
      exists []. split; [by rewrite app_nil_r | simpl; lia].
    + repeat split; try done; [eexists; split; [done | simpl; lia]|].
      rewrite filter_app, filter_cons_False, filter_nil, app_nil_r; done.
  - destruct (database_view_effect "profiles" "KeyProjects" "country"
                App.countries P session req st)
      as [E|(text & role & E & _)];
      unfold after_c, App.country_profiles; rewrite E; simpl.
    + repeat split; try done.
      exists []. split; [by rewrite app_nil_r | simpl; lia].
    + repeat split; try done; [eexists; split; [done | simpl; lia]|].
      rewrite filter_app, filter_cons_False, filter_nil, app_nil_r; done.
Qed.

(** ** Login *)

(** What a login that redirects has checked and stored. *)
Lemma login_redirects (users : gmap string App.user_row) roles_df session req
    (session' : dict) :
  App.login users roles_df session req = (session', App.Redirect "dashboard") →
  ∃ (username password role_name : string) (u : App.user_row),
    App.method req = "POST" ∧
    App.form req !! "username" = Some username ∧
    App.form req !! "password" = Some password ∧
    users !! username = Some u ∧
    App.PasswordHash u = VStr password ∧
    App.role_name_of roles_df (App.user_RoleID u) = Some role_name ∧
    session' = <["role" := VStr role_name]> (<["user" := VStr username]> session).
Proof.
  unfold App.login.
  case_bool_decide as Hpost; [|done].
  destruct (App.form req !! "username") as [username|]; [|done].
  destruct (App.form req !! "password") as [password|]; [|done].
  destruct (users !! username) as [u|] eqn:Eu; [|done].
  destruct (App.eq_text (App.PasswordHash u) (Some password)) eqn:Epw; [|done].
  destruct (App.role_name_of roles_df (App.user_RoleID u)) as [role_name|] eqn:Er;
    [|done].
  intros [= <-]. exists username, password, role_name, u.
  repeat split; try done.
  unfold App.eq_text in Epw. destruct (App.PasswordHash u); try done.
  by apply bool_decide_eq_true in Epw as ->.
Qed.

(** X8 (when login grants).  [login] redirects to the dashboard exactly
    when the request is a POST whose ['username'] is a key of [users], whose
    ['password'] is equal, as text, to the ['PasswordHash'] cell of that
    user, and whose role identifier is found (the roles frame is empty, or
    has a row with it); the session then holds the user name and the name
    of the first such role row under ['user'] and ['role']. *)
Theorem login_grants (users : gmap string App.user_row) roles_df session req
    (session' : dict) :
  App.login users roles_df session req = (session', App.Redirect "dashboard") ↔
  ∃ (username password role_name : string) (u : App.user_row),
    App.method req = "POST" ∧
    App.form req !! "username" = Some username ∧
    App.form req !! "password" = Some password ∧
    users !! username = Some u ∧
    App.PasswordHash u = VStr password ∧
    App.role_name_of roles_df (App.user_RoleID u) = Some role_name ∧
    session' = <["role" := VStr role_name]> (<["user" := VStr username]> session).
Proof.
  split; [apply login_redirects|].
  intros (username & password & role_name & u & Hpost & Hu & Hp & Eu & Epw & Er & ->).
  unfold App.login.
  rewrite bool_decide_eq_true_2 by done. rewrite Hu, Hp, Eu, Epw. simpl.
  rewrite bool_decide_eq_true_2 by done. by rewrite Er.
Qed.

(** X9 (a refused login).  When the posted password is not equal to the
    stored cell, or the user name is unknown, [login] shows its error page
    and the session is as it was. *)
Theorem login_refuses (users : gmap string App.user_row) roles_df session req
    (username password : string) :
  App.method req = "POST" →
  App.form req !! "username" = Some username →
  App.form req !! "password" = Some password →
  (∀ u, users !! username = Some u → App.PasswordHash u ≠ VStr password) →
  App.login users roles_df session req =
  (session, App.Page (Some "Invalid credentials. Try again.")).
Proof.
  intros Hpost Hu Hp Hno. unfold App.login.
  rewrite bool_decide_eq_true_2 by done. rewrite Hu, Hp.
  destruct (users !! username) as [u|] eqn:Eu; [|done].
  destruct (App.eq_text (App.PasswordHash u) (Some password)) eqn:Epw; [|done].
  exfalso. apply (Hno u eq_refl).
  unfold App.eq_text in Epw. destruct (App.PasswordHash u); try done.
  by apply bool_decide_eq_true in Epw as ->.
Qed.

(** X10 (from login to the dashboard).  After a login that redirects, the
    entry page sends to the dashboard and the dashboard renders, for the
    role the login stored: it neither sends back to the login page nor
    raises. *)
Theorem login_then_dashboard (users : gmap string App.user_row) roles_df P
    session req (session' : dict) st :
  App.login users roles_df session req = (session', App.Redirect "dashboard") →
  App.index session' = App.Redirect "dashboard" ∧
  ∃ page, App.dashboard P session' st = App.Page page ∧
          session' !! "role" = Some (App.role page).
Proof.
  intros Hlogin. apply login_redirects in Hlogin
    as (username & password & role_name & u & _ & _ & _ & _ & _ & _ & ->).
  unfold App.index, App.dashboard.
  rewrite lookup_insert_ne by done. rewrite !lookup_insert_eq.
  split; [done|]. by eexists.
Qed.

(** X11 (without a user).  A session with no ['user'] entry, as [logout]
    leaves it, gets a redirect from every view behind a door, and the views
    that edit the stores leave them as they are. *)
Theorem anonymous_is_turned_away P session req st :
  session !! "user" = None →
  App.index session = App.Redirect "login" ∧
  App.dashboard P session st = App.Redirect "login" ∧
  App.admin P session req st = (st, App.Redirect "dashboard") ∧
  App.mineral_database P session req st = (st, App.Redirect "dashboard") ∧
  App.country_profiles P session req st = (st, App.Redirect "dashboard") ∧
  App.download_minerals_pdf P session st = App.Redirect "dashboard" ∧
  App.download_countries_pdf P session st = App.Redirect "dashboard" ∧
  App.geographical_map P session req st = App.Redirect "dashboard".
Proof.
  intros Hanon.
  unfold App.index, App.dashboard, App.admin, App.mineral_database,
    App.country_profiles, App.database_view, App.download_minerals_pdf,
    App.download_countries_pdf, App.download_pdf, App.geographical_map,
    App.guard.
  by rewrite !Hanon.
Qed.

(** ** The administration panel *)

Lemma guard_lets_in {A} P session (refused : pyval → bool) (role : pyval) :
  is_Some (session !! "user") →
  session !! "role" = Some role →
  refused role = false →
  App.guard (A := A) session refused = None.
Proof. unfold App.guard. intros [u ->] -> ->. done. Qed.

Lemma admin_action P session req st (a : string) :
  App.lets_in P session →
  App.method req = "POST" →
  App.form req !! "action" = Some a →
  App.admin P session req st =
  if bool_decide (a = "edit_mineral") then App.edit_mineral (App.form req) st
  else if bool_decide (a = "delete_mineral") then App.delete_mineral (App.form req) st
  else if bool_decide (a = "add_country") then App.add_country (App.form req) st
  else if bool_decide (a = "delete_country") then App.delete_country (App.form req) st
  else if bool_decide (a = "add_site") then App.add_site (App.form req) st
  else if bool_decide (a = "delete_site") then App.delete_site (App.form req) st
  else (st, App.Page None).
Proof.
  intros (Hu & role & Hrole & Hall) Hpost Ha. unfold App.admin.
  rewrite (guard_lets_in P session _ role Hu Hrole) by (by rewrite Hall).
  rewrite bool_decide_eq_true_2 by done. rewrite Ha.
  assert (∀ x : string, bool_decide (Some a = Some x) = bool_decide (a = x))
    as Hb.
  { intros x. apply bool_decide_ext. split; [by intros [= ->]|by intros ->]. }
  by rewrite !Hb.
Qed.

(** The store a request to the panel leaves is that of one branch, or the
    store it found. *)
Lemma admin_cases P session req st :
  let after := (App.admin P session req st).1 in
  after = st ∨
  (App.form req !! "action" = Some "edit_mineral" ∧
   after = (App.edit_mineral (App.form req) st).1) ∨
  (App.form req !! "action" = Some "delete_mineral" ∧
   after = (App.delete_mineral (App.form req) st).1) ∨
  (App.form req !! "action" = Some "add_country" ∧
   after = (App.add_country (App.form req) st).1) ∨
  (App.form req !! "action" = Some "delete_country" ∧
   after = (App.delete_country (App.form req) st).1) ∨
  (App.form req !! "action" = Some "add_site" ∧
   after = (App.add_site (App.form req) st).1) ∨
  (App.form req !! "action" = Some "delete_site" ∧
   after = (App.delete_site (App.form req) st).1).
Proof.
  unfold App.admin. simpl.
  destruct (App.guard _ _); [by left|].
  case_bool_decide; [|by left].
  repeat (case_bool_decide; [auto 10|]). by left.
Qed.

(** X12 (who edits).  With the table built from any roles file, a request
    to the panel from a session whose role is not ['Administrator'] leaves
    the four stores as they are and shows no page. *)
Theorem only_administrator_edits roles_df session req st :
  session !! "role" ≠ Some (VStr "Administrator") →
  (App.admin (App.PERMISSIONS roles_df) session req st).1 = st ∧
  ∀ page, (App.admin (App.PERMISSIONS roles_df) session req st).2 ≠ App.Page page.
Proof.
  intros Hrole. unfold App.admin, App.guard.
  destruct (session !! "user"); [|done].
  destruct (session !! "role") as [role|]; [|done].
  assert (App.may (App.PERMISSIONS roles_df) role "all" = false) as ->; [|done].
  destruct role as [|n|f|r]; try done.
  unfold App.may. rewrite granted_PERMISSIONS.
  destruct (decide (r ∈ App.RoleName <$> roles_df)) as [Hin|Hout];
    [rewrite (bool_decide_eq_true_2 _ Hin)
    |by rewrite (bool_decide_eq_false_2 _ Hout)].
  destruct (role_permissions_cases r)
    as [[-> E]|[[-> E]|[[-> E]|(_ & _ & _ & E)]]]; [done|by rewrite E..].
Qed.

(** X13 (one store at a time).  A request to the panel never touches the
    insights; the minerals change only under [edit_mineral] and
    [delete_mineral], the countries only under [add_country] and
    [delete_country], the sites only under [add_site] and [delete_site]:
    deleting a country or a mineral leaves the sites that name it. *)
Theorem admin_touches_one_store P session req st :
  let after := (App.admin P session req st).1 in
  App.insights after = App.insights st ∧
  (App.minerals after ≠ App.minerals st →
     App.form req !! "action" = Some "edit_mineral" ∨
     App.form req !! "action" = Some "delete_mineral") ∧
  (App.countries after ≠ App.countries st →
     App.form req !! "action" = Some "add_country" ∨
     App.form req !! "action" = Some "delete_country") ∧
  (App.sites after ≠ App.sites st →
     App.form req !! "action" = Some "add_site" ∨
     App.form req !! "action" = Some "delete_site").
Proof.
  intros after.
  assert (∀ st' : App.store,
            st' = st ∨
            (App.insights st' = App.insights st ∧
             App.countries st' = App.countries st ∧
             App.sites st' = App.sites st ∧
             (App.form req !! "action" = Some "edit_mineral" ∨
              App.form req !! "action" = Some "delete_mineral")) ∨
            (App.insights st' = App.insights st ∧
             App.minerals st' = App.minerals st ∧
             App.sites st' = App.sites st ∧
             (App.form req !! "action" = Some "add_country" ∨
              App.form req !! "action" = Some "delete_country")) ∨
            (App.insights st' = App.insights st ∧
             App.minerals st' = App.minerals st ∧
             App.countries st' = App.countries st ∧
             (App.form req !! "action" = Some "add_site" ∨
              App.form req !! "action" = Some "delete_site")) →
            App.insights st' = App.insights st ∧
            (App.minerals st' ≠ App.minerals st →
               App.form req !! "action" = Some "edit_mineral" ∨
               App.form req !! "action" = Some "delete_mineral") ∧
            (App.countries st' ≠ App.countries st →
               App.form req !! "action" = Some "add_country" ∨
               App.form req !! "action" = Some "delete_country") ∧
            (App.sites st' ≠ App.sites st →
               App.form req !! "action" = Some "add_site" ∨
               App.form req !! "action" = Some "delete_site")) as Hshape.
  { intros st' [->|[(Ei & Ec & Es & Ha)|[(Ei & Em & Es & Ha)|(Ei & Em & Ec & Ha)]]];
      repeat split; try done; intros Hne; try done;
      exfalso; apply Hne; congruence. }
  apply Hshape.
  destruct (admin_cases P session req st)
    as [E|[[Ha E]|[[Ha E]|[[Ha E]|[[Ha E]|[[Ha E]|[Ha E]]]]]]];
    fold after in E; rewrite E; clear E after Hshape.
  - by left.
  - unfold App.edit_mineral.
    destruct (_ ≫= _) as [[n info]|]; simpl; [|by left].
    right; left. auto.
  - unfold App.delete_mineral.
    destruct (_ ≫= _) as [[n info]|]; simpl; [|by left].
    right; left. auto.
  - unfold App.add_country.
    destruct (App.form req !! "country_name") as [[|a t]|]; simpl;
      [by left| |by left].
    destruct (App.countries st !! _); simpl; [by left|].
    right; right; left. auto.
  - unfold App.delete_country.
    destruct (_ ≫= _) as [[n info]|]; simpl; [|by left].
    right; right; left. auto.
  - unfold App.add_site.
    destruct (App.form req !! "site_name") as [[|a t]|]; simpl;
      [by left| |by left].
    destruct (App.form req !! "site_country"); simpl; [|by left].
    destruct (App.form req !! "site_mineral"); simpl; [|by left].
    destruct (_ && _); simpl; [|by left].
    destruct (App.new_site _ _ _ _ _ _); simpl; [|by left].
    right; right; right. auto.
  - unfold App.delete_site.
    destruct (App.delete_first _ _); simpl; [|by left].
    right; right; right. auto.
Qed.

(** The loop of [delete_site] deletes at the first index where the name
    matches. *)
Lemma delete_first_find (name : option string) (l : list dict) :
  App.delete_first name l =
  (λ found, delete found.1 l) <$>
    list_find (λ s, App.eq_text (get s "SiteName" VNone) name = true) l.
Proof.
  induction l as [|s l IH]; [done|]. simpl.
  destruct (App.eq_text (get s "SiteName" VNone) name) eqn:E.
  - by rewrite decide_True.
  - rewrite decide_False by done. rewrite IH.
    by destruct (list_find _ l) as [[i x]|].
Qed.

(** X14 ([delete_site] deletes one record).  Past the door, [delete_site]
    removes the record at the first index whose ['SiteName'] equals the
    posted name and no other, so that records of the same name further down
    stay; when no record has the name the sites are as they were. *)
Theorem delete_site_first_only P session req st :
  App.lets_in P session →
  App.method req = "POST" →
  App.form req !! "action" = Some "delete_site" →
  App.sites (App.admin P session req st).1 =
  match list_find (λ s, App.eq_text (get s "SiteName" VNone)
                                    (App.form req !! "site_name") = true)
                  (App.sites st) with
  | Some (i, _) => delete i (App.sites st)
  | None => App.sites st
  end.
Proof.
  intros Hadm Hpost Ha. rewrite (admin_action P session req st _ Hadm Hpost Ha).
  simpl. unfold App.delete_site. rewrite delete_first_find.
  by destruct (list_find _ _) as [[i x]|].
Qed.

(** X15 (a country added, then deleted).  Past the door, adding a country
    under a name that is not empty and not yet a key, then deleting the
    country of that name, gives back the store the first request found. *)
Theorem add_then_delete_country P session (req_add req_del : App.request) st
    (n : string) :
  App.lets_in P session →
  App.method req_add = "POST" →
  App.form req_add !! "action" = Some "add_country" →
  App.form req_add !! "country_name" = Some n →
  App.method req_del = "POST" →
  App.form req_del !! "action" = Some "delete_country" →
  App.form req_del !! "country_name" = Some n →
  n ≠ "" →
  App.countries st !! n = None →
  (App.admin P session req_del (App.admin P session req_add st).1).1 = st.
Proof.
  intros Hadm Hp1 Ha1 Hn1 Hp2 Ha2 Hn2 Hne Hfresh.
  rewrite (admin_action P session req_add st _ Hadm Hp1 Ha1).
  rewrite (admin_action P session req_del _ _ Hadm Hp2 Ha2). simpl.
  unfold App.add_country. rewrite Hn1.
  destruct n as [|a t]; [done|]. rewrite Hfresh. simpl.
  unfold App.delete_country. rewrite Hn2. simpl.
  rewrite lookup_insert_eq. simpl. rewrite delete_insert_eq.
  rewrite delete_id by done. by destruct st.
Qed.

(** X16 ([add_country] does not overwrite).  Whatever the session and the
    form, a request whose action is [add_country] keeps every country the
    store holds, with its cells. *)
Theorem add_country_keeps_countries P session req st :
  App.form req !! "action" = Some "add_country" →
  App.countries st ⊆ App.countries (App.admin P session req st).1.
Proof.
  intros Ha.
  destruct (admin_cases P session req st)
    as [E|[[Ha' E]|[[Ha' E]|[[Ha' E]|[[Ha' E]|[[Ha' E]|[Ha' E]]]]]]];
    rewrite E; clear E; try (rewrite Ha in Ha'; discriminate); [done|].
  unfold App.add_country.
  destruct (App.form req !! "country_name") as [[|a t]|]; simpl; [done| |done].
  destruct (App.countries st !! String a t) eqn:Ec; simpl; [done|].
  by apply insert_subseteq.
Qed.

(** X17 ([edit_mineral] edits in place).  A request whose action is
    [edit_mineral] creates and removes no mineral, leaves every mineral
    but the named one as it is, and on the named one writes the
    description and the price only. *)
Theorem edit_mineral_in_place P session req st :
  App.form req !! "action" = Some "edit_mineral" →
  let after := (App.admin P session req st).1 in
  dom (App.minerals after) = dom (App.minerals st) ∧
  (∀ k : string, App.form req !! "mineral_name" ≠ Some k →
     App.minerals after !! k = App.minerals st !! k) ∧
  (∀ (k field : string) (info info' : dict),
     App.minerals st !! k = Some info →
     App.minerals after !! k = Some info' →
     field ≠ "Description" → field ≠ "MarketPriceUSD_per_tonne" →
     info' !! field = info !! field).
Proof.
  intros Ha after.
  destruct (admin_cases P session req st)
    as [E|[[Ha' E]|[[Ha' E]|[[Ha' E]|[[Ha' E]|[[Ha' E]|[Ha' E]]]]]]];
    fold after in E; rewrite E; clear E after;
    try (rewrite Ha in Ha'; discriminate).
  - split; [done|]. split; [done|]. intros k field info info' -> [= ->]. done.
  - unfold App.edit_mineral.
    destruct (App.form req !! "mineral_name") as [n|] eqn:En; simpl.
    2:{ split; [done|]. split; [done|]. by intros k field info info' -> [= ->]. }
    destruct (App.minerals st !! n) as [info0|] eqn:Ei; simpl.
    2:{ split; [done|]. split; [done|]. by intros k field info info' -> [= ->]. }
    split; [|split].
    + rewrite dom_insert_L. apply (elem_of_dom_2 (D := gset string)) in Ei.
      by apply subseteq_union_1_L, singleton_subseteq_l.
    + intros k Hk. rewrite lookup_insert_ne; [done|]. by intros ->.
    + intros k field info info' Hk Hk' Hd Hp.
      destruct (decide (n = k)) as [->|Hne].
      * rewrite lookup_insert_eq in Hk'. injection Hk' as <-.
        rewrite Ei in Hk. injection Hk as <-.
        rewrite lookup_insert_ne by done. by rewrite lookup_insert_ne.
      * rewrite lookup_insert_ne in Hk' by done. congruence.
Qed.

(** X18 ([add_site] appends what was typed).  A request whose action is
    [add_site] leaves the store as it is, or appends one record at the end
    of the sites and touches nothing else.  The record names a country and
    a mineral that are keys of the stores, its coordinates are the posted
    texts converted by [float()], whatever the centroid of the country, and
    it has every key the map asks of a site. *)
Theorem add_site_appends P session req st :
  App.form req !! "action" = Some "add_site" →
  let after := (App.admin P session req st).1 in
  after = st ∨
  ∃ (s : dict) (lat lon : float) (c m : string),
    after = App.set_sites st (App.sites st ++ [s]) ∧
    py_float (App.cell (App.form req !! "latitude")) = Some lat ∧
    py_float (App.cell (App.form req !! "longitude")) = Some lon ∧
    s !! "CountryName" = Some (VStr c) ∧ is_Some (App.countries st !! c) ∧
    s !! "MineralName" = Some (VStr m) ∧ is_Some (App.minerals st !! m) ∧
    ∃ mk, App.marker_of s = Some mk ∧
          App.location mk = (VFloat lat, VFloat lon).
Proof.
  intros Ha after.
  destruct (admin_cases P session req st)
    as [E|[[Ha' E]|[[Ha' E]|[[Ha' E]|[[Ha' E]|[[Ha' E]|[Ha' E]]]]]]];
    fold after in E; rewrite E; clear E after;
    try (rewrite Ha in Ha'; discriminate); [by left|].
  unfold App.add_site.
  destruct (App.form req !! "site_name") as [[|a t]|]; simpl;
    [by left| |by left].
  destruct (App.form req !! "site_country") as [c|]; simpl; [|by left].
  destruct (App.form req !! "site_mineral") as [m|]; simpl; [|by left].
  case_bool_decide as Hc; simpl; [|by left].
  case_bool_decide as Hm; simpl; [|by left].
  unfold App.new_site.
  destruct (py_float (App.cell (App.form req !! "latitude"))) as [lat|];
    [|by left].
  destruct (py_float (App.cell (App.form req !! "longitude"))) as [lon|];
    [|by left].
  destruct (App.py_int (App.form req !! "production")) as [tonnes|];
    [|by left].
  right. eexists _, lat, lon, c, m. simpl.
  split; [done|]. split; [done|]. split; [done|].
  split; [by simplify_map_eq|]. split; [done|].
  split; [by simplify_map_eq|]. split; [done|].
  unfold App.marker_of. simplify_map_eq. by eexists.
Qed.

(** ** The map *)

(** X19 (a swapped site on the map).  A record the loader swaps, if it has
    a name and a production cell, gets a marker whose location is the
    transposed pair. *)
Theorem swapped_site_marker (s : dict) (lat lon c_lat c_lon : float) :
  parsed s lat lon →
  centroid_of (get s "CountryName" VNone) = Some (c_lat, c_lon) →
  far lat lon c_lat c_lon = true →
  PrimFloat.ltb (dist lon lat c_lat c_lon) (dist lat lon c_lat c_lon) = true →
  is_Some (s !! "SiteName") →
  is_Some (s !! "Production_tonnes") →
  ∃ mk, App.marker_of (corrected s) = Some mk ∧
        App.location mk = (VFloat lon, VFloat lat).
Proof.
  intros Hp Hc Hfar Hlt [name Hname] [tonnes Htonnes].
  destruct (swap_effect s lat lon c_lat c_lon Hp Hc Hfar Hlt) as [-> _].
  unfold App.marker_of. simplify_map_eq. by eexists.
Qed.

Lemma mapM_filter {A B} (f : A → option B) (Q : A → Prop)
    `{∀ x, Decision (Q x)} (l : list A) (k : list B) :
  mapM f l = Some k →
  ∃ k', mapM f (filter Q l) = Some k' ∧ k' `sublist_of` k.
Proof.
  revert k. induction l as [|x l IH]; intros k Hk.
  - exists []. split; [done|]. apply sublist_nil_l.
  - apply mapM_Some in Hk. apply Forall2_cons_inv_l in Hk
      as (y & k0 & Hy & Hk0 & ->).
    apply mapM_Some in Hk0. destruct (IH k0 Hk0) as (k' & Hk' & Hsub).
    destruct (decide (Q x)).
    + rewrite filter_cons_True by done. exists (y :: k'). split.
      * apply mapM_Some. constructor; [done|]. by apply mapM_Some.
      * by apply sublist_skip.
    + rewrite filter_cons_False by done. exists k'. split; [done|].
      by apply sublist_cons.
Qed.

(** X20 (a filtered map is part of the whole map).  When the map with no
    filter renders, so does the map under any mineral filter, and its
    markers are among those of the whole map, in the same order. *)
Theorem filtered_map_is_part P session (req_all req : App.request) st
    (all : list App.marker) :
  App.args req_all !! "mineral" = None →
  App.geographical_map P session req_all st = App.Page all →
  ∃ shown, App.geographical_map P session req st = App.Page shown ∧
           shown `sublist_of` all.
Proof.
  unfold App.geographical_map. intros ->.
  destruct (App.guard _ _) as [out|]; [intros ->; by exists all|]. simpl.
  unfold App.filtered_sites at 1. rewrite bool_decide_eq_true_2 by done.
  destruct (mapM App.place (App.sites st)) as [k|] eqn:Ek; [|done].
  intros [= <-]. unfold App.filtered_sites. case_bool_decide.
  - rewrite Ek. by eexists.
  - destruct (mapM_filter App.place
                (λ s, App.eq_text (get s "MineralName" VNone)
                        (Some (default "all" (App.args req !! "mineral"))) = true)
                _ _ Ek) as (k' & -> & Hsub).
    by eexists.
Qed.

(** A site is placed unless one of the four keys read with [site[...]] is
    missing or folium refuses the location. *)
Lemma place_None (site : dict) :
  App.place site = None ↔
  site !! "Latitude" = None ∨ site !! "Longitude" = None ∨
  site !! "SiteName" = None ∨ site !! "Production_tonnes" = None ∨
  ∃ lat lon, site !! "Latitude" = Some lat ∧ site !! "Longitude" = Some lon ∧
             App.valid_location (lat, lon) = false.
Proof.
  unfold App.place, App.marker_of.
  destruct (site !! "Latitude") as [lat|], (site !! "Longitude") as [lon|],
           (site !! "SiteName"), (site !! "Production_tonnes"); simpl;
    try (split; [intros _; auto|done]).
  destruct (App.valid_location (lat, lon)) eqn:Ev; split.
  - done.
  - intros [?|[?|[?|[?|(lat' & lon' & [= <-] & [= <-] & Hv)]]]]; congruence.
  - intros _. do 4 right. by exists lat, lon.
  - done.
Qed.

(** X21 (when the map raises).  Past the door, placing the markers raises
    exactly when one of the sites to show has no ['Latitude'],
    ['Longitude'], ['SiteName'] or ['Production_tonnes'] key ([KeyError]),
    or has a location that [folium.Marker] refuses ([ValueError]): the site
    list is never checked before it is drawn. *)
Theorem map_raises_on_bad_site P session req st :
  App.guard (A := list App.marker) session
    (λ role, negb (App.may P role "map") && negb (App.may P role "all")) = None →
  App.geographical_map P session req st = App.Raise ↔
  ∃ site, site ∈ App.filtered_sites (default "all" (App.args req !! "mineral"))
                   (App.sites st) ∧
          (site !! "Latitude" = None ∨ site !! "Longitude" = None ∨
           site !! "SiteName" = None ∨ site !! "Production_tonnes" = None ∨
           ∃ lat lon, site !! "Latitude" = Some lat ∧
                      site !! "Longitude" = Some lon ∧
                      App.valid_location (lat, lon) = false).
Proof.
  intros Hopen. unfold App.geographical_map. rewrite Hopen. simpl.
  set (l := App.filtered_sites _ _).
  destruct (mapM App.place l) as [k|] eqn:Ek.
  - split; [done|]. intros (site & Hin & Hbad). exfalso.
    apply place_None in Hbad.
    assert (is_Some (mapM App.place l)) as Hs by (by rewrite Ek).
    apply mapM_is_Some in Hs. rewrite Forall_forall in Hs.
    destruct (Hs site Hin) as [mk Hsome]. simpl in Hsome. congruence.
  - split; [|done]. intros _.
    destruct (decide (Forall (λ site, is_Some (App.place site)) l))
      as [Hall|Hnot].
    + apply (mapM_is_Some_2 App.place) in Hall. rewrite Ek in Hall.
      by destruct Hall.
    + apply not_Forall_Exists in Hnot; [|apply _].
      apply Exists_exists in Hnot as (site & Hin & Hno).
      exists site. split; [done|]. apply place_None.
      destruct (App.place site) as [mk|] eqn:Emk; [|done].
      exfalso. apply Hno. rewrite Emk. by exists mk.
Qed.

(** ** The PDF exports *)

Lemma draw_entries_pen {A} (y : Z) (entries : list A) :
  50 ≤ y ≤ 750 →
  Forall (λ op, match op with
                | App.drawString x y' _ => x = 30 ∧ 50 ≤ y' ≤ 750
                | App.showPage => True
                end) (App.draw_entries y entries).
Proof.
  revert y. induction entries as [|e entries IH]; intros y Hy; simpl.
  - constructor.
  - constructor; [done|]. destruct (y - 20 <? 50) eqn:E.
    + constructor; [done|]. apply IH. lia.
    + apply IH. apply Z.ltb_ge in E. lia.
Qed.

(** X22 (the pen stays on the page).  Whatever the number of entries, every
    line of an export is drawn at abscissa 30 and at a height between 50
    and 750 points: the page break comes before a line could fall below the
    bottom margin. *)
Theorem export_pen_on_page {A} (title : A) (entries : list A) :
  Forall (λ op, match op with
                | App.drawString x y _ => x = 30 ∧ 50 ≤ y ≤ 750
                | App.showPage => True
                end) (App.draw_export title entries).
Proof.
  unfold App.draw_export. constructor; [lia|].
  apply draw_entries_pen. lia.
Qed.

Lemma draw_entries_lines {A} (y : Z) (entries : list A) :
  App.lines_drawn (App.draw_entries y entries) = entries.
Proof.
  revert y. induction entries as [|e entries IH]; intros y; [done|].
  unfold App.lines_drawn in *. simpl.
  destruct (y - 20 <? 50); simpl; by rewrite IH.
Qed.

(** X23 (every entry once, in order).  The lines an export draws are the
    title, then the entries, each once and in the order given, wherever the
    page breaks fall. *)
Theorem export_draws_every_entry {A} (title : A) (entries : list A) :
  App.lines_drawn (App.draw_export title entries) = title :: entries.
Proof.
  unfold App.draw_export, App.lines_drawn. simpl.
  f_equal. apply draw_entries_lines.
Qed.

Lemma draw_entries_pages {A} (y : Z) (entries : list A) :
  50 ≤ y ≤ 750 →
  Z.of_nat (App.pages_closed (App.draw_entries y entries)) =
  let room := (y - 50) / 20 + 1 in
  let n := Z.of_nat (length entries) in
  if n <? room then 0 else 1 + (n - room) / 36.
Proof.
  revert y. induction entries as [|e entries IH]; intros y Hy.
  - cbv zeta. change (Z.of_nat (length [])) with 0.
    destruct (0 <? (y - 50) / 20 + 1) eqn:E; [done|].
    apply Z.ltb_ge in E. Z.div_mod_to_equations. lia.
  - cbn [App.draw_entries length]. unfold App.pages_closed in *.
    cbn [omap list_omap]. cbv zeta.
    destruct (y - 20 <? 50) eqn:Ey.
    + apply Z.ltb_lt in Ey. cbn [omap list_omap length].
      rewrite !Nat2Z.inj_succ, (IH 750) by lia. cbv zeta.
      change ((750 - 50) / 20 + 1) with 36.
      destruct (Z.of_nat (length entries) <? 36) eqn:E1;
        destruct (Z.succ (Z.of_nat (length entries)) <? (y - 50) / 20 + 1) eqn:E2;
        try apply Z.ltb_lt in E1; try apply Z.ltb_ge in E1;
        try apply Z.ltb_lt in E2; try apply Z.ltb_ge in E2;
        Z.div_mod_to_equations; lia.
    + apply Z.ltb_ge in Ey. rewrite (IH (y - 20)) by lia. cbv zeta.
      rewrite !Nat2Z.inj_succ.
      assert ((y - 20 - 50) / 20 + 1 = (y - 50) / 20) as ->
        by (Z.div_mod_to_equations; lia).
      destruct (Z.of_nat (length entries) <? (y - 50) / 20) eqn:E1;
        destruct (Z.succ (Z.of_nat (length entries)) <? (y - 50) / 20 + 1) eqn:E2;
        try apply Z.ltb_lt in E1; try apply Z.ltb_ge in E1;
        try apply Z.ltb_lt in E2; try apply Z.ltb_ge in E2;
        try lia.
      f_equal. f_equal. lia.
Qed.

(** X24 (page breaks).  An export of [n] entries closes no page when
    [n < 34], and [1 + (n - 34) / 36] pages otherwise: 34 entries fit under
    the title on the first page and 36 on each page after it. *)
Theorem export_page_breaks {A} (title : A) (entries : list A) :
  let n := Z.of_nat (length entries) in
  Z.of_nat (App.pages_closed (App.draw_export title entries)) =
  if n <? 34 then 0 else 1 + (n - 34) / 36.
Proof.
  unfold App.draw_export. cbv zeta.
  change (App.pages_closed
            (App.drawString 30 750 title :: App.draw_entries (750 - 30) entries))
    with (App.pages_closed (App.draw_entries 720 entries)).
  by rewrite draw_entries_pages by lia.
Qed.

(** ** Search *)

Lemma guard_no_page {A} session (refused : pyval → bool) (a : A) :
  App.guard session refused ≠ Some (App.Page a).
Proof.
  unfold App.guard. destruct (session !! "user"); [|done].
  destruct (session !! "role") as [role|]; [|done]. by destruct (refused role).
Qed.

Lemma search_lookup (field q : string) (table r : gmap string dict)
    (k : string) (v : dict) :
  App.search field q table = Some r →
  table !! k = Some v →
  r !! k = Some v ↔
  q = "" ∨ App.entry_matches field q k v = Some true.
Proof.
  unfold App.search.
  destruct q as [|a q]; [intros [= <-] Hk; split; [by left|done]|].
  case_bool_decide; [|done]. intros [= <-] Hk.
  rewrite map_lookup_filter_Some. simpl. split.
  - intros [_ Hm]. by right.
  - intros [[=]|Hm]. done.
Qed.

(** X25 (what a search lists).  When [mineral_database] or
    [country_profiles] renders, the entries it lists are entries of the
    table, unaltered; with an empty query they are the whole table;
    otherwise an entry is listed exactly when the query occurs in its
    lowercased name or in its lowercased text cell. *)
Theorem database_view_lists (feature field kind : string)
    (table : App.store → gmap string dict) P session req st
    (st' : App.store) (page : App.database_page) :
  App.database_view feature field kind table P session req st
    = (st', App.Page page) →
  let q := App.search_query page in
  q = App.lower (App.strip (default "" (App.args req !! "search"))) ∧
  App.listed page ⊆ table st ∧
  (q = "" → App.listed page = table st) ∧
  ∀ (k : string) (v : dict), table st !! k = Some v →
    App.listed page !! k = Some v ↔
    q = "" ∨
    App.contains q (App.lower k) = true ∨
    ∃ d, get v field (VStr "") = VStr d ∧
         App.contains q (App.lower d) = true.
Proof.
  unfold App.database_view.
  destruct (App.guard _ _) as [o|] eqn:Eg;
    [intros [= <- ->]; by apply guard_no_page in Eg|].
  set (q0 := App.lower (App.strip (default "" (App.args req !! "search")))).
  destruct (App.search field q0 (table st)) as [r|] eqn:Er; [|done].
  destruct (if _ && _ then _ else _) as [st0 msg]. intros [= <- <-]. simpl.
  split; [done|]. split; [|split].
  - unfold App.search in Er. destruct q0; [by injection Er as <-|].
    case_bool_decide; [|done]. injection Er as <-. apply map_filter_subseteq.
  - intros E. rewrite E in Er. simpl in Er. by injection Er.
  - intros k v Hk. rewrite (search_lookup field q0 (table st) r k v Er Hk).
    unfold App.entry_matches.
    destruct (App.contains q0 (App.lower k)); [by intuition auto|].
    destruct (get v field (VStr "")) as [|n|f|d];
      split; intros [?|Hm]; auto; try done;
      try (destruct Hm as [?|(d' & ? & ?)]; done).
    + injection Hm as Hm. right; right. by exists d.
    + destruct Hm as [?|(d' & [= <-] & ->)]; [done|]. by right.
Qed.


(** ** The report of the loader *)

Lemma events_flagged (s : dict) :
  events s ≠ [] ↔
  validate s = Some swap_correctable ∨ validate s = Some unresolved_mismatch.
Proof.
  destruct (path_total s) as
    [Hbad|lat lon Hp Hc|lat lon c_lat c_lon Hp Hc Hfar
    |lat lon c_lat c_lon Hp Hc Hfar Hlt|lat lon c_lat c_lon Hp Hc Hfar Hlt].
  - destruct (body_unparsed s Hbad) as [Hb ->].
    destruct (untouched s Hb) as [_ ->]. by split; [|intros [|]].
  - rewrite (validate_unknown s lat lon Hp Hc).
    destruct (untouched s (body_unknown s Hc)) as [_ ->].
    by split; [|intros [|]].
  - destruct (body_near s lat lon c_lat c_lon Hp Hc Hfar) as [Hb ->].
    destruct (untouched s Hb) as [_ ->]. by split; [|intros [|]].
  - destruct (body_swap s lat lon c_lat c_lon Hp Hc Hfar Hlt) as [_ ->].
    destruct (swap_effect s lat lon c_lat c_lon Hp Hc Hfar Hlt) as [_ ->].
    split; [by left|done].
  - destruct (body_mismatch s lat lon c_lat c_lon Hp Hc Hfar Hlt) as [_ ->].
    destruct (mismatch_effect s lat lon c_lat c_lon Hp Hc Hfar Hlt) as [_ ->].
    split; [by right|done].
Qed.

(** X27 (when the corrected file is written).  After the loop, the loader
    writes [data/sites_fixed.csv] exactly when at least one record was
    classified swap-correctable or unresolved; the file then takes every
    record of the run, the untouched ones included, in input order.  When
    no record is flagged nothing is printed and nothing is written. *)
Theorem report_writes_when_flagged (sites : list dict) (csv_ok : bool)
    (path : string) (rows : list dict) :
  let flagged := Exists (λ s, validate s = Some swap_correctable ∨
                              validate s = Some unresolved_mismatch) sites in
  (ToCsv path rows ∈ report (correct_sites sites) csv_ok ↔
   flagged ∧ path = "data/sites_fixed.csv" ∧ rows = corrected <$> sites) ∧
  (¬ flagged → report (correct_sites sites) csv_ok = []).
Proof.
  intros flagged. unfold report. rewrite correct_sites_unfold. simpl.
  assert (sites ≫= events ≠ [] ↔ flagged) as Hflag.
  { unfold flagged. rewrite Exists_exists. split.
    - intros Hne. destruct (sites ≫= events) as [|c l] eqn:E; [done|].
      assert (c ∈ sites ≫= events) as Hc by (rewrite E; by left).
      apply list_elem_of_bind in Hc as (s & Hcs & Hs).
      exists s. split; [done|]. apply events_flagged. intros E0.
      rewrite E0 in Hcs. by apply elem_of_nil in Hcs.
    - intros (s & Hs & Hv) E. apply events_flagged in Hv.
      destruct (events s) as [|c l] eqn:Es; [done|].
      assert (c ∈ sites ≫= events) as Hc.
      { apply list_elem_of_bind. exists s. split; [|done]. rewrite Es. by left. }
      rewrite E in Hc. by apply elem_of_nil in Hc. }
  destruct (sites ≫= events) as [|c l] eqn:E.
  - split.
    + split; [by intros ?%elem_of_nil|]. intros [Hf _].
      by apply Hflag in Hf.
    + done.
  - assert (flagged) as Hf by (by apply Hflag).
    split; [|done]. split.
    + intros Hin. split; [done|].
      apply elem_of_cons in Hin as [[=]|Hin].
      apply elem_of_app in Hin as [Hin|Hin].
      * apply list_elem_of_fmap in Hin as (c' & Hc' & _).
        unfold report_line in Hc'. by destruct (action c').
      * apply elem_of_cons in Hin as [[= -> ->]|Hin]; [done|].
        apply list_elem_of_singleton in Hin. by destruct csv_ok.
    + intros (_ & -> & ->). right. apply elem_of_app. right. by left.
Qed.

End AppProperties.

(** ** The model run on concrete rows *)

#[local] Existing Instance decimal_reader.

(** C1 fails on a record whose transposed pair is nearer to the centroid
    without reaching the window: the first pass swaps it, the second pass
    flags it again, as unresolved, and appends an event. *)
Lemma second_pass_reflags :
  validate Rows.far_both_ways = Some swap_correctable ∧
  validate (corrected Rows.far_both_ways) = Some unresolved_mismatch ∧
  events (corrected Rows.far_both_ways) ≠ [].
Proof.
  split; [evaluated|]. split; [evaluated|]. vm_compute. discriminate.
Qed.

Lemma second_pass_after_swap_far_both_ways :
  (parsed Rows.far_both_ways 60 (-30) ∧
   centroid_of (get Rows.far_both_ways "CountryName" VNone) =
     Some ((-30.559482)%float, 22.937506%float) ∧
   far 60 (-30) (-30.559482) 22.937506 = true ∧
   PrimFloat.ltb (dist (-30) 60 (-30.559482) 22.937506)
                 (dist 60 (-30) (-30.559482) 22.937506) = true) ∧
  (let s' := corrected Rows.far_both_ways in
   parsed s' (-30) 60 ∧
   corrected s' !! "Latitude" = s' !! "Latitude" ∧
   corrected s' !! "Longitude" = s' !! "Longitude" ∧
   (far (-30) 60 (-30.559482) 22.937506 = false →
      validate s' = Some consistent ∧ corrected s' = s' ∧ events s' = []) ∧
   (far (-30) 60 (-30.559482) 22.937506 = true →
      validate s' = Some unresolved_mismatch ∧
      corrected s' !! "Note" = Some (VStr mismatch_note) ∧
      ∃ c, events s' = [c] ∧ action c = mismatch ∧
           old c = ((-30)%float, 60%float))).
Proof.
  split; [evaluated|].
  apply (second_pass_after_swap Rows.far_both_ways 60 (-30)
           (-30.559482) 22.937506); evaluated.
Defined.

(** The South African scenario: stored (22.94, -30.56), corrected to
    (-30.56, 22.94), one [swap_latlon] event. *)
Lemma swap_correctness_south_africa :
  (parsed Rows.south_africa 22.94 (-30.56) ∧
   centroid_of (get Rows.south_africa "CountryName" VNone) =
     Some ((-30.559482)%float, 22.937506%float) ∧
   far 22.94 (-30.56) (-30.559482) 22.937506 = true ∧
   PrimFloat.ltb (dist (-30.56) 22.94 (-30.559482) 22.937506)
                 (dist 22.94 (-30.56) (-30.559482) 22.937506) = true) ∧
  (validate Rows.south_africa = Some swap_correctable ∧
   corrected Rows.south_africa !! "Latitude" = Some (VFloat (-30.56)) ∧
   corrected Rows.south_africa !! "Longitude" = Some (VFloat 22.94) ∧
   ∃ c, events Rows.south_africa = [c] ∧ action c = swap_latlon ∧
        old c = (22.94%float, (-30.56)%float) ∧
        new c = Some ((-30.56)%float, 22.94%float) ∧
        ∀ before after : list dict,
          ∃ o, o !! "Latitude" = Some (VFloat (-30.56)) ∧
               o !! "Longitude" = Some (VFloat 22.94) ∧
               correct_sites (before ++ Rows.south_africa :: after) =
               {| corrections := corrections (correct_sites before) ++
                                 c :: corrections (correct_sites after);
                  corrected_sites := corrected_sites (correct_sites before) ++
                                     o :: corrected_sites (correct_sites after) |}).
Proof.
  split; [evaluated|].
  apply (swap_correctness Rows.south_africa 22.94 (-30.56)
           (-30.559482) 22.937506); evaluated.
Defined.

(** The Namibian scenario: at (5.0, 5.0) the transposed pair is the pair
    itself, the distances tie, and the record is left for manual review. *)
Lemma mismatch_preservation_namibia :
  (parsed Rows.namibia 5.0 5.0 ∧
   centroid_of (get Rows.namibia "CountryName" VNone) =
     Some ((-22.9576)%float, 18.4904%float) ∧
   far 5.0 5.0 (-22.9576) 18.4904 = true ∧
   PrimFloat.leb (dist 5.0 5.0 (-22.9576) 18.4904)
                 (dist 5.0 5.0 (-22.9576) 18.4904) = true) ∧
  (validate Rows.namibia = Some unresolved_mismatch ∧
   corrected Rows.namibia !! "Latitude" = Rows.namibia !! "Latitude" ∧
   corrected Rows.namibia !! "Longitude" = Rows.namibia !! "Longitude" ∧
   corrected Rows.namibia !! "Note" = Some (VStr mismatch_note) ∧
   ∃ c, events Rows.namibia = [c] ∧ action c = mismatch ∧
        old c = (5.0%float, 5.0%float) ∧
        country_centroid c = Some ((-22.9576)%float, 18.4904%float) ∧
        ∀ before after : list dict,
          ∃ o, o !! "Latitude" = Rows.namibia !! "Latitude" ∧
               o !! "Longitude" = Rows.namibia !! "Longitude" ∧
               o !! "Note" = Some (VStr mismatch_note) ∧
               correct_sites (before ++ Rows.namibia :: after) =
               {| corrections := corrections (correct_sites before) ++
                                 c :: corrections (correct_sites after);
                  corrected_sites := corrected_sites (correct_sites before) ++
                                     o :: corrected_sites (correct_sites after) |}).
Proof.
  split; [evaluated|].
  apply (mismatch_preservation Rows.namibia 5.0 5.0 (-22.9576) 18.4904);
    evaluated.
Defined.

(** C4 fails on a missing coordinate: [s.get('Latitude', 0)] reads an
    absent key as 0, the conversion succeeds and the record is validated
    like any other; here it is flagged, annotated and logged. *)
Lemma missing_latitude_is_validated :
  Rows.no_latitude !! "Latitude" = None ∧
  validate Rows.no_latitude = Some unresolved_mismatch ∧
  events Rows.no_latitude ≠ [] ∧
  corrected Rows.no_latitude ≠ Rows.no_latitude.
Proof.
  split; [evaluated|]. split; [evaluated|]. split.
  - vm_compute. discriminate.
  - intros E. apply (f_equal (λ m : dict, m !! "Note")) in E.
    vm_compute in E. discriminate.
Qed.

(** So does a blank cell: NaN converts, and a longitude far from the
    centroid is enough for the record to be flagged. *)
Lemma blank_latitude_is_validated :
  py_float (get Rows.blank_latitude "Latitude" (VInt 0)) = Some PrimFloat.nan ∧
  validate Rows.blank_latitude = Some unresolved_mismatch ∧
  events Rows.blank_latitude ≠ [].
Proof.
  split; [evaluated|]. split; [evaluated|]. vm_compute. discriminate.
Qed.

Lemma unconvertible_passes_through_bad_latitude :
  (py_float (get Rows.bad_latitude "Latitude" (VInt 0)) = None ∨
   py_float (get Rows.bad_latitude "Longitude" (VInt 0)) = None) ∧
  (validate Rows.bad_latitude = None ∧
   corrected Rows.bad_latitude = Rows.bad_latitude ∧
   events Rows.bad_latitude = [] ∧
   ∀ before after : list dict,
     correct_sites (before ++ Rows.bad_latitude :: after) =
     {| corrections := corrections (correct_sites before) ++
                       corrections (correct_sites after);
        corrected_sites := corrected_sites (correct_sites before) ++
                           Rows.bad_latitude ::
                           corrected_sites (correct_sites after) |}).
Proof.
  split; [left; evaluated|].
  apply (unconvertible_passes_through Rows.bad_latitude). left. evaluated.
Defined.

Lemma unknown_country_untouched_australia :
  centroid_of (get Rows.australia "CountryName" VNone) = None ∧
  (corrected Rows.australia = Rows.australia ∧ events Rows.australia = []).
Proof.
  split; [evaluated|].
  apply (unknown_country_untouched Rows.australia). evaluated.
Defined.

Lemma window_is_noop_cape_town :
  (parsed Rows.cape_town (-33.92) 18.42 ∧
   centroid_of (get Rows.cape_town "CountryName" VNone) =
     Some ((-30.559482)%float, 22.937506%float) ∧
   PrimFloat.leb (PrimFloat.abs (-33.92 - -30.559482)) 10 = true ∧
   PrimFloat.leb (PrimFloat.abs (18.42 - 22.937506)) 20 = true) ∧
  (validate Rows.cape_town = Some consistent ∧
   corrected Rows.cape_town = Rows.cape_town ∧
   events Rows.cape_town = []).
Proof.
  split; [evaluated|].
  apply (window_is_noop Rows.cape_town (-33.92) 18.42 (-30.559482) 22.937506);
    evaluated.
Defined.


(** A column of text under ['MineralID'] makes the merge raise, and the
    handler of the block empties [sites]. *)
Lemma text_identifier_empties_sites :
  corrected_sites
    (load_sites [<["MineralID" := VStr "Au"]> Rows.raw1;
                 <["MineralID" := VStr "Cu"]> Rows.raw2]
                Rows.minerals Rows.countries) = [].
Proof. evaluated. Qed.

(** A sites file with a ['CountryName'] column of its own: pandas keeps it
    apart from the joined one, and the record has no ['CountryName'] key for
    the loop to read. *)
Lemma name_column_is_suffixed :
  (λ o : dict, (o !! "CountryName", o !! "CountryName_x", o !! "CountryName_y"))
    <$> corrected_sites (load_sites [Rows.raw_named] Rows.minerals Rows.countries)
  = [(None, Some (VStr "Namibia"), Some (VStr "South Africa"))].
Proof. evaluated. Qed.


Lemma frame_condition_site_id :
  ("SiteID" ≠ "Latitude" ∧ "SiteID" ≠ "Longitude" ∧ "SiteID" ≠ "Note") ∧
  corrected Rows.south_africa !! "SiteID" = Rows.south_africa !! "SiteID".
Proof.
  split; [by repeat split|].
  by apply (frame_condition Rows.south_africa "SiteID").
Defined.

(** C9 fails on any record the pass leaves alone: nothing is written under
    ['Note'], so a row that came without a note leaves without one. *)
Lemma consistent_record_has_no_note :
  Rows.cape_town !! "Note" = None ∧
  validate Rows.cape_town = Some consistent ∧
  corrected Rows.cape_town !! "Note" = None.
Proof. repeat split; evaluated. Qed.

Lemma audit_before_mutation_south_africa :
  let s := Rows.south_africa in
  let c := swap_event s 22.94 (-30.56) in
  c ∈ events s ∧
  ∃ lat lon,
    parsed s lat lon ∧
    old c = (lat, lon) ∧
    (action c = swap_latlon → new c = Some (lon, lat)) ∧
    (∃ q, body s = Append c :: q ∧ Forall (λ i, ∃ k v, i = SetItem k v) q) ∧
    ∀ before after : list dict,
      corrections (correct_sites (before ++ s :: after)) =
      corrections (correct_sites before) ++
        c :: corrections (correct_sites after).
Proof.
  intros s c.
  assert (c ∈ events s) as Hin by (vm_compute; left).
  split; [exact Hin|]. exact (audit_before_mutation s c Hin).
Defined.

(** ** The application run on concrete requests *)

#[local] Existing Instance Reader.int_reader.
#[local] Existing Instance Reader.text.
#[local] Existing Instance Reader.location_check.

(** The administrator of the demonstration data is let into the panel. *)
Lemma administrator_let_in :
  App.lets_in (App.PERMISSIONS Demo.roles_df) Demo.administrator.
Proof.
  split; [by eexists|]. eexists. split; [reflexivity|]. evaluated.
Defined.

(** A theme sent as JSON is stored; a JSON body that is a list makes the
    view raise, and the session keeps the theme it had. *)
Lemma set_theme_on_json_bodies :
  let sent (body : App.json_value) : App.request :=
    {| App.method := "POST"; App.form := ∅; App.args := ∅;
       App.json := Some (Some body) |} in
  let session := <["theme" := VStr "light"]> Demo.investor in
  App.set_theme session (sent (App.JObject [("theme", App.JString "dark")]))
    = (<["theme" := VStr "dark"]> session, App.Page ("", 204)) ∧
  App.set_theme session (sent (App.JArray [])) = (session, App.Raise).
Proof. split; evaluated. Qed.

(** A roles file without its ['Permissions'] column leaves the table empty:
    the administrator is turned away from the panel like anyone else. *)
Lemma roles_without_permissions_column :
  let roles_csv := Some (delete "Permissions" <$> (App.role_record <$> Demo.roles_df)) in
  App.load_roles roles_csv = ∅ ∧
  App.load_roles (Some (App.role_record <$> Demo.roles_df)) !! "Administrator"
    = Some ["all"] ∧
  (App.admin (App.load_roles roles_csv) Demo.administrator (Demo.post [])
     Demo.store).2 = App.Redirect "dashboard".
Proof. repeat split; evaluated. Qed.

Lemma dashboard_lists_open_views_investor :
  let P := App.PERMISSIONS Demo.roles_df in
  let page := {| App.role := VStr "Investor";
                 App.features := ["profiles"; "charts"];
                 App.is_admin := false;
                 App.num_countries := 1; App.num_minerals := 2;
                 App.num_sites := 3 |} in
  (App.dashboard P Demo.investor Demo.store = App.Page page ∧
   "charts" ∈ ["database"; "profiles"; "charts"; "map"]) ∧
  ("charts" ∈ App.features page ↔
   App.guard (A := unit) Demo.investor
     (λ role, negb (App.may P role "charts") && negb (App.may P role "all"))
   = None).
Proof.
  intros P page.
  assert (App.dashboard P Demo.investor Demo.store = App.Page page) as Hd
    by evaluated.
  assert ("charts" ∈ ["database"; "profiles"; "charts"; "map"]) as Hf
    by (repeat constructor).
  split; [exact (conj Hd Hf)|].
  exact (dashboard_lists_open_views P Demo.investor Demo.store page "charts"
           Hd Hf).
Defined.

Lemma dashboard_by_role_researcher :
  let page := {| App.role := VStr "Researcher";
                 App.features := ["database"; "profiles"; "map"];
                 App.is_admin := false;
                 App.num_countries := 1; App.num_minerals := 2;
                 App.num_sites := 3 |} in
  let r := "Researcher" in
  (App.dashboard (App.PERMISSIONS Demo.roles_df) Demo.researcher Demo.store
     = App.Page page ∧
   Demo.researcher !! "role" = Some (VStr r)) ∧
  (App.features page =
     (if bool_decide (r ∈ App.RoleName <$> Demo.roles_df) then
        if bool_decide (r = "Administrator")
        then ["database"; "profiles"; "charts"; "map"]
        else if bool_decide (r = "Investor") then ["profiles"; "charts"]
        else if bool_decide (r = "Researcher")
        then ["database"; "profiles"; "map"]
        else []
      else []) ∧
   App.is_admin page =
     bool_decide (r ∈ App.RoleName <$> Demo.roles_df) &&
     bool_decide (r = "Administrator")).
Proof.
  intros page r.
  assert (App.dashboard (App.PERMISSIONS Demo.roles_df) Demo.researcher
            Demo.store = App.Page page) as Hd by evaluated.
  assert (Demo.researcher !! "role" = Some (VStr r)) as Hr by evaluated.
  split; [exact (conj Hd Hr)|].
  exact (dashboard_by_role Demo.roles_df Demo.researcher Demo.store page r
           Hd Hr).
Defined.

Lemma only_researcher_adds_insight_demo :
  let P := App.PERMISSIONS Demo.roles_df in
  let req := Demo.post [("insight", "Rich vein")] in
  ((App.mineral_database P Demo.researcher req Demo.store).1 ≠ Demo.store ∨
   (App.country_profiles P Demo.researcher req Demo.store).1 ≠ Demo.store) ∧
  (Demo.researcher !! "role" = Some (VStr "Researcher") ∧
   "Researcher" ∈ App.RoleName <$> Demo.roles_df).
Proof.
  intros P req.
  assert ((App.mineral_database P Demo.researcher req Demo.store).1 ≠ Demo.store ∨
          (App.country_profiles P Demo.researcher req Demo.store).1 ≠ Demo.store)
    as Hch.
  { left. intros E. apply (f_equal App.insights) in E.
    vm_compute in E. discriminate. }
  split; [exact Hch|].
  exact (only_researcher_adds_insight Demo.roles_df Demo.researcher req
           Demo.store Hch).
Defined.

Lemma login_refuses_wrong_password :
  let req := Demo.post [("username", "admin01"); ("password", "letmein")] in
  (App.method req = "POST" ∧
   App.form req !! "username" = Some "admin01" ∧
   App.form req !! "password" = Some "letmein" ∧
   ∀ u, Demo.users !! "admin01" = Some u → App.PasswordHash u ≠ VStr "letmein") ∧
  App.login Demo.users Demo.roles_df ∅ req =
  (∅, App.Page (Some "Invalid credentials. Try again.")).
Proof.
  intros req.
  assert (∀ u, Demo.users !! "admin01" = Some u →
               App.PasswordHash u ≠ VStr "letmein") as Hno.
  { intros u Hu. vm_compute in Hu. injection Hu as <-. discriminate. }
  assert (App.method req = "POST") as Hm by evaluated.
  assert (App.form req !! "username" = Some "admin01") as Hu by evaluated.
  assert (App.form req !! "password" = Some "letmein") as Hp by evaluated.
  split; [exact (conj Hm (conj Hu (conj Hp Hno)))|].
  exact (login_refuses Demo.users Demo.roles_df ∅ req "admin01" "letmein"
           Hm Hu Hp Hno).
Defined.

Lemma login_then_dashboard_administrator :
  let req := Demo.post [("username", "admin01"); ("password", "admin123")] in
  let P := App.PERMISSIONS Demo.roles_df in
  App.login Demo.users Demo.roles_df ∅ req =
    (Demo.administrator, App.Redirect "dashboard") ∧
  (App.index Demo.administrator = App.Redirect "dashboard" ∧
   ∃ page, App.dashboard P Demo.administrator Demo.store = App.Page page ∧
           Demo.administrator !! "role" = Some (App.role page)).
Proof.
  intros req P.
  assert (App.login Demo.users Demo.roles_df ∅ req =
            (Demo.administrator, App.Redirect "dashboard")) as Hl by evaluated.
  split; [exact Hl|].
  exact (login_then_dashboard Demo.users Demo.roles_df P ∅ req
           Demo.administrator Demo.store Hl).
Defined.

Lemma anonymous_is_turned_away_after_logout :
  let P := App.PERMISSIONS Demo.roles_df in
  let session := (App.logout Demo.administrator).1 in
  let req := Demo.post [("action", "delete_site"); ("site_name", "Kimberley")] in
  session !! "user" = None ∧
  (App.index session = App.Redirect "login" ∧
   App.dashboard P session Demo.store = App.Redirect "login" ∧
   App.admin P session req Demo.store = (Demo.store, App.Redirect "dashboard") ∧
   App.mineral_database P session req Demo.store
     = (Demo.store, App.Redirect "dashboard") ∧
   App.country_profiles P session req Demo.store
     = (Demo.store, App.Redirect "dashboard") ∧
   App.download_minerals_pdf P session Demo.store = App.Redirect "dashboard" ∧
   App.download_countries_pdf P session Demo.store = App.Redirect "dashboard" ∧
   App.geographical_map P session req Demo.store = App.Redirect "dashboard").
Proof.
  intros P session req.
  assert (session !! "user" = None) as Hanon by evaluated.
  split; [exact Hanon|].
  exact (anonymous_is_turned_away P session req Demo.store Hanon).
Defined.

Lemma only_administrator_edits_investor :
  let req := Demo.post [("action", "delete_site"); ("site_name", "Kimberley")] in
  Demo.investor !! "role" ≠ Some (VStr "Administrator") ∧
  ((App.admin (App.PERMISSIONS Demo.roles_df) Demo.investor req Demo.store).1
     = Demo.store ∧
   ∀ page, (App.admin (App.PERMISSIONS Demo.roles_df) Demo.investor req
              Demo.store).2 ≠ App.Page page).
Proof.
  intros req.
  assert (Demo.investor !! "role" ≠ Some (VStr "Administrator")) as Hr
    by (vm_compute; discriminate).
  split; [exact Hr|].
  exact (only_administrator_edits Demo.roles_df Demo.investor req Demo.store Hr).
Defined.

Lemma delete_site_first_only_kimberley :
  let P := App.PERMISSIONS Demo.roles_df in
  let req := Demo.post [("action", "delete_site"); ("site_name", "Kimberley")] in
  (App.lets_in P Demo.administrator ∧ App.method req = "POST" ∧
   App.form req !! "action" = Some "delete_site") ∧
  App.sites (App.admin P Demo.administrator req Demo.store).1 =
  match list_find (λ s, App.eq_text (get s "SiteName" VNone)
                                    (App.form req !! "site_name") = true)
                  (App.sites Demo.store) with
  | Some (i, _) => delete i (App.sites Demo.store)
  | None => App.sites Demo.store
  end.
Proof.
  intros P req.
  assert (App.method req = "POST") as Hm by evaluated.
  assert (App.form req !! "action" = Some "delete_site") as Ha by evaluated.
  split; [exact (conj administrator_let_in (conj Hm Ha))|].
  exact (delete_site_first_only P Demo.administrator req Demo.store
           administrator_let_in Hm Ha).
Defined.

(** Of the three records named Kimberley the first goes, the two further
    down the list stay. *)
Lemma delete_site_leaves_namesakes :
  (λ s, (s !! "SiteID", s !! "SiteName")) <$>
    App.sites
      (App.admin (App.PERMISSIONS Demo.roles_df) Demo.administrator
         (Demo.post [("action", "delete_site"); ("site_name", "Kimberley")])
         Demo.store).1
  = [(Some (VInt 2), Some (VStr "Kimberley"));
     (Some (VInt 1), Some (VStr "Kimberley"))].
Proof. evaluated. Qed.

Lemma add_then_delete_country_zambia :
  let P := App.PERMISSIONS Demo.roles_df in
  let req_add := Demo.post [("action", "add_country");
                            ("country_name", "Zambia"); ("gdp", "29")] in
  let req_del := Demo.post [("action", "delete_country");
                            ("country_name", "Zambia")] in
  (App.lets_in P Demo.administrator ∧
   App.form req_add !! "country_name" = Some "Zambia" ∧
   App.form req_del !! "country_name" = Some "Zambia" ∧
   "Zambia" ≠ "" ∧
   App.countries Demo.store !! "Zambia" = None) ∧
  (App.admin P Demo.administrator req_del
     (App.admin P Demo.administrator req_add Demo.store).1).1 = Demo.store.
Proof.
  intros P req_add req_del.
  assert (App.method req_add = "POST") as Hm1 by evaluated.
  assert (App.form req_add !! "action" = Some "add_country") as Ha1 by evaluated.
  assert (App.form req_add !! "country_name" = Some "Zambia") as Hn1 by evaluated.
  assert (App.method req_del = "POST") as Hm2 by evaluated.
  assert (App.form req_del !! "action" = Some "delete_country") as Ha2
    by evaluated.
  assert (App.form req_del !! "country_name" = Some "Zambia") as Hn2 by evaluated.
  assert ("Zambia" ≠ "") as Hne by discriminate.
  assert (App.countries Demo.store !! "Zambia" = None) as Hfresh by evaluated.
  split; [exact (conj administrator_let_in
                   (conj Hn1 (conj Hn2 (conj Hne Hfresh))))|].
  exact (add_then_delete_country P Demo.administrator req_add req_del
           Demo.store "Zambia" administrator_let_in Hm1 Ha1 Hn1 Hm2 Ha2 Hn2
           Hne Hfresh).
Defined.

Lemma add_country_keeps_countries_demo :
  let P := App.PERMISSIONS Demo.roles_df in
  let req := Demo.post [("action", "add_country");
                        ("country_name", "South Africa"); ("gdp", "0")] in
  App.form req !! "action" = Some "add_country" ∧
  App.countries Demo.store ⊆
    App.countries (App.admin P Demo.administrator req Demo.store).1.
Proof.
  intros P req.
  assert (App.form req !! "action" = Some "add_country") as Ha by evaluated.
  split; [exact Ha|].
  exact (add_country_keeps_countries P Demo.administrator req Demo.store Ha).
Defined.

Lemma edit_mineral_in_place_gold :
  let P := App.PERMISSIONS Demo.roles_df in
  let req := Demo.post [("action", "edit_mineral"); ("mineral_name", "Gold");
                        ("description", "Au"); ("market_price", "61000000")] in
  App.form req !! "action" = Some "edit_mineral" ∧
  (let after := (App.admin P Demo.administrator req Demo.store).1 in
   dom (App.minerals after) = dom (App.minerals Demo.store) ∧
   (∀ k : string, App.form req !! "mineral_name" ≠ Some k →
      App.minerals after !! k = App.minerals Demo.store !! k) ∧
   (∀ (k field : string) (info info' : dict),
      App.minerals Demo.store !! k = Some info →
      App.minerals after !! k = Some info' →
      field ≠ "Description" → field ≠ "MarketPriceUSD_per_tonne" →
      info' !! field = info !! field)).
Proof.
  intros P req.
  assert (App.form req !! "action" = Some "edit_mineral") as Ha by evaluated.
  split; [exact Ha|].
  exact (edit_mineral_in_place P Demo.administrator req Demo.store Ha).
Defined.

Lemma add_site_appends_upington :
  let P := App.PERMISSIONS Demo.roles_df in
  let req := Demo.post [("action", "add_site"); ("site_name", "Upington");
                        ("site_country", "South Africa"); ("site_mineral", "Gold");
                        ("latitude", "22.94"); ("longitude", "-30.56");
                        ("production", "100")] in
  App.form req !! "action" = Some "add_site" ∧
  (let after := (App.admin P Demo.administrator req Demo.store).1 in
   after = Demo.store ∨
   ∃ (s : dict) (lat lon : float) (c m : string),
     after = App.set_sites Demo.store (App.sites Demo.store ++ [s]) ∧
     py_float (App.cell (App.form req !! "latitude")) = Some lat ∧
     py_float (App.cell (App.form req !! "longitude")) = Some lon ∧
     s !! "CountryName" = Some (VStr c) ∧
     is_Some (App.countries Demo.store !! c) ∧
     s !! "MineralName" = Some (VStr m) ∧
     is_Some (App.minerals Demo.store !! m) ∧
     ∃ mk, App.marker_of s = Some mk ∧
           App.location mk = (VFloat lat, VFloat lon)).
Proof.
  intros P req.
  assert (App.form req !! "action" = Some "add_site") as Ha by evaluated.
  split; [exact Ha|].
  exact (add_site_appends P Demo.administrator req Demo.store Ha).
Defined.

(** The site so added is stored as typed, where the loader would have
    swapped its coordinates. *)
Lemma added_site_is_not_checked :
  (λ s, (s !! "Latitude", s !! "Longitude", validate s)) <$>
    last (App.sites
            (App.admin (App.PERMISSIONS Demo.roles_df) Demo.administrator
               (Demo.post [("action", "add_site"); ("site_name", "Upington");
                           ("site_country", "South Africa");
                           ("site_mineral", "Gold");
                           ("latitude", "22.94"); ("longitude", "-30.56");
                           ("production", "100")]) Demo.store).1)
  = Some (Some (VFloat 22.94), Some (VFloat (-30.56)), Some swap_correctable).
Proof. evaluated. Qed.

Lemma swapped_site_marker_kimberley :
  (parsed Demo.kimberley 22.94 (-30.56) ∧
   centroid_of (get Demo.kimberley "CountryName" VNone) =
     Some ((-30.559482)%float, 22.937506%float) ∧
   far 22.94 (-30.56) (-30.559482) 22.937506 = true ∧
   PrimFloat.ltb (dist (-30.56) 22.94 (-30.559482) 22.937506)
                 (dist 22.94 (-30.56) (-30.559482) 22.937506) = true ∧
   is_Some (Demo.kimberley !! "SiteName") ∧
   is_Some (Demo.kimberley !! "Production_tonnes")) ∧
  ∃ mk, App.marker_of (corrected Demo.kimberley) = Some mk ∧
        App.location mk = (VFloat (-30.56), VFloat 22.94).
Proof.
  assert (parsed Demo.kimberley 22.94 (-30.56)) as Hp by evaluated.
  assert (centroid_of (get Demo.kimberley "CountryName" VNone) =
            Some ((-30.559482)%float, 22.937506%float)) as Hc by evaluated.
  assert (far 22.94 (-30.56) (-30.559482) 22.937506 = true) as Hfar
    by evaluated.
  assert (PrimFloat.ltb (dist (-30.56) 22.94 (-30.559482) 22.937506)
            (dist 22.94 (-30.56) (-30.559482) 22.937506) = true) as Hlt
    by evaluated.
  assert (is_Some (Demo.kimberley !! "SiteName")) as Hn
    by (exists (VStr "Kimberley"); evaluated).
  assert (is_Some (Demo.kimberley !! "Production_tonnes")) as Ht
    by (exists (VInt 1200); evaluated).
  split; [exact (conj Hp (conj Hc (conj Hfar (conj Hlt (conj Hn Ht)))))|].
  exact (swapped_site_marker Demo.kimberley 22.94 (-30.56)
           (-30.559482) 22.937506 Hp Hc Hfar Hlt Hn Ht).
Defined.

Lemma filtered_map_is_part_gold :
  let P := App.PERMISSIONS Demo.roles_df in
  let req_all := Demo.query [] in
  let req := Demo.query [("mineral", "Gold")] in
  let all := default [] (mapM App.marker_of (App.sites Demo.store)) in
  (App.args req_all !! "mineral" = None ∧
   App.geographical_map P Demo.researcher req_all Demo.store = App.Page all) ∧
  ∃ shown, App.geographical_map P Demo.researcher req Demo.store
             = App.Page shown ∧
           shown `sublist_of` all.
Proof.
  intros P req_all req all.
  assert (App.args req_all !! "mineral" = None) as Hq by evaluated.
  assert (App.geographical_map P Demo.researcher req_all Demo.store
          = App.Page all) as Hall by evaluated.
  split; [exact (conj Hq Hall)|].
  exact (filtered_map_is_part P Demo.researcher req_all req Demo.store all
           Hq Hall).
Defined.

Lemma map_raises_on_bad_site_tsumeb :
  let P := App.PERMISSIONS Demo.roles_df in
  let st := App.set_sites Demo.store [Demo.tsumeb] in
  App.guard (A := list App.marker) Demo.researcher
    (λ role, negb (App.may P role "map") && negb (App.may P role "all")) = None ∧
  (App.geographical_map P Demo.researcher (Demo.query []) st = App.Raise ↔
   ∃ site, site ∈ App.filtered_sites
                    (default "all" (App.args (Demo.query []) !! "mineral"))
                    (App.sites st) ∧
           (site !! "Latitude" = None ∨ site !! "Longitude" = None ∨
            site !! "SiteName" = None ∨ site !! "Production_tonnes" = None ∨
            ∃ lat lon, site !! "Latitude" = Some lat ∧
                       site !! "Longitude" = Some lon ∧
                       App.valid_location (lat, lon) = false)).
Proof.
  intros P st.
  assert (App.guard (A := list App.marker) Demo.researcher
            (λ role, negb (App.may P role "map") && negb (App.may P role "all"))
          = None) as Hg by evaluated.
  split; [exact Hg|].
  exact (map_raises_on_bad_site P Demo.researcher (Demo.query []) st Hg).
Defined.

(** The map of the loaded sites raises on the site without a production
    cell. *)
Lemma map_raises_without_production :
  App.geographical_map (App.PERMISSIONS Demo.roles_df) Demo.researcher
    (Demo.query []) (App.set_sites Demo.store [Demo.tsumeb]) = App.Raise.
Proof. evaluated. Qed.

(** It raises as well on a site that has every key and a blank latitude:
    the cell is NaN, which folium refuses; under a filter that leaves the
    site out the map is drawn. *)
Lemma map_raises_on_blank_latitude :
  let P := App.PERMISSIONS Demo.roles_df in
  let st := App.set_sites Demo.store [Demo.kimberley; Demo.musina] in
  App.marker_of Demo.musina ≠ None ∧
  App.geographical_map P Demo.researcher (Demo.query []) st = App.Raise ∧
  App.geographical_map P Demo.researcher (Demo.query [("mineral", "Gold")]) st
    ≠ App.Raise.
Proof.
  intros P st. split; [vm_compute; discriminate|].
  split; [evaluated|]. vm_compute. discriminate.
Qed.

Lemma database_view_lists_cobalt :
  let P := App.PERMISSIONS Demo.roles_df in
  let req := Demo.query [("search", " CO ")] in
  let page := {| App.listed := <["Cobalt" := Demo.cobalt]> ∅;
                 App.shown_insights := [];
                 App.message := None;
                 App.search_query := "co" |} in
    App.database_view "database" "Description" "mineral" App.minerals
      P Demo.researcher req Demo.store = (Demo.store, App.Page page) ∧
    (let q := App.search_query page in
     q = App.lower (App.strip (default "" (App.args req !! "search"))) ∧
     App.listed page ⊆ App.minerals Demo.store ∧
     (q = "" → App.listed page = App.minerals Demo.store) ∧
     ∀ (k : string) (v : dict), App.minerals Demo.store !! k = Some v →
       App.listed page !! k = Some v ↔
       q = "" ∨
       App.contains q (App.lower k) = true ∨
       ∃ d, get v "Description" (VStr "") = VStr d ∧
            App.contains q (App.lower d) = true).
Proof.
  intros P req page.
  assert (App.database_view "database" "Description" "mineral" App.minerals
            P Demo.researcher req Demo.store = (Demo.store, App.Page page))
    as Hv by evaluated.
  split; [exact Hv|].
  exact (database_view_lists "database" "Description" "mineral" App.minerals
           P Demo.researcher req Demo.store Demo.store page Hv).
Defined.


(** Searching the demonstration minerals for ["gold"] raises: cobalt does
    not match by name and its description is NaN. *)
Lemma search_gold_raises :
  (App.mineral_database (App.PERMISSIONS Demo.roles_df) Demo.researcher
     (Demo.query [("search", "gold")]) Demo.store).2 = App.Raise.
Proof. evaluated. Qed.
